(** * Git Commit Helper: the commit message composer of [commithelp.py]

    A shallow embedding of [CommitHelper], [quick_commit] and [main], and
    the properties of the assembled conventional-commit message and of the
    prompt loops.

    Modelling conventions.
    - A Python [str] is a [string]; one [ascii] stands for one code point
      below 256, so [String.length] is Python's [len].  Code points from
      256 on are outside the model.
    - Console input is a finite list of events: a typed line, or Ctrl-C
      while [input()] waits.  The end of the list is end of file, where
      [input()] raises [EOFError].
    - A computation returns its result, the input it has not read and the
      events it emitted (prompts, printed messages, subprocess calls).
    - The outcome of a [subprocess.run(..., check=True)] call is given by
      an oracle [git] from the argument vector; an exception that the
      program does not catch is one of the outcomes.
    - [main] starts from the parsed command line; what [argparse] does
      with a malformed one comes before and is not modelled. *)

From Stdlib Require Import String Ascii List ZArith NArith Bool Lia.
Import ListNotations.
Open Scope string_scope.

(* ------------------------------------------------------------------ *)
(** ** Characters and strings as Python sees them *)

Module PyStr.

Definition code (c : ascii) : N := N_of_ascii c.

(** [str.isspace] on one code point below 256. *)
Definition isspace (c : ascii) : bool :=
  let n := code c in
  ((9 <=? n) && (n <=? 13) || (28 <=? n) && (n <=? 32)
   || (n =? 133) || (n =? 160))%N.

(** [str.lower] on one code point below 256: A-Z and the Latin-1 capitals
    (0xC0-0xDE without the multiplication sign 0xD7) move up by 32. *)
Definition lower_char (c : ascii) : ascii :=
  let n := code c in
  if ((65 <=? n) && (n <=? 90)
      || (192 <=? n) && (n <=? 222) && negb (n =? 215))%N
  then ascii_of_N (n + 32) else c.

Fixpoint lower (s : string) : string :=
  match s with
  | EmptyString => EmptyString
  | String c s' => String (lower_char c) (lower s')
  end.

Fixpoint lstrip (s : string) : string :=
  match s with
  | EmptyString => EmptyString
  | String c s' => if isspace c then lstrip s' else s
  end.

Fixpoint rstrip (s : string) : string :=
  match s with
  | EmptyString => EmptyString
  | String c s' =>
      match rstrip s' with
      | EmptyString => if isspace c then EmptyString else String c EmptyString
      | r => String c r
      end
  end.

(** [s.strip()] *)
Definition strip (s : string) : string := rstrip (lstrip s).

(** Truth value of a string: [if s:] holds for the non-empty ones. *)
Definition truthy (s : string) : bool :=
  match s with EmptyString => false | String _ _ => true end.

(** [sep.join(parts)] *)
Fixpoint join (sep : string) (parts : list string) : string :=
  match parts with
  | [] => ""
  | [p] => p
  | p :: ps => p ++ sep ++ join sep ps
  end.

(** [c in s] for a character. *)
Fixpoint has_char (c : ascii) (s : string) : bool :=
  match s with
  | EmptyString => false
  | String c' s' => Ascii.eqb c c' || has_char c s'
  end.

(** [s.endswith(p)] *)
Fixpoint endswith (p s : string) : bool :=
  String.eqb p s
  || match s with
     | EmptyString => false
     | String _ s' => endswith p s'
     end.

(** [s.startswith(p)] *)
Fixpoint startswith (p s : string) : bool :=
  match p, s with
  | EmptyString, _ => true
  | String a p', String b s' => Ascii.eqb a b && startswith p' s'
  | String _ _, EmptyString => false
  end.

(** [p in s] for strings. *)
Fixpoint contains (p s : string) : bool :=
  startswith p s
  || match s with
     | EmptyString => false
     | String _ s' => contains p s'
     end.

(** The text before the first line feed: [s.split("\n")[0]]. *)
Fixpoint first_line (s : string) : string :=
  match s with
  | EmptyString => EmptyString
  | String c s' =>
      if Ascii.eqb c "010" then EmptyString else String c (first_line s')
  end.

Definition is_digit (c : ascii) : bool :=
  ((48 <=? code c) && (code c <=? 57))%N.

Definition digit_value (c : ascii) : Z := Z.of_N (code c) - 48.

(** Digits of an integer literal after the first one: a single underscore
    may sit between two digits.  [us] records that the character just read
    was an underscore; [n] counts the digits read so far. *)
Fixpoint int_digits (s : string) (us : bool) (acc : Z) (n : N)
  : option (Z * N) :=
  match s with
  | EmptyString => if us then None else Some (acc, n)
  | String c s' =>
      if is_digit c then int_digits s' false (10 * acc + digit_value c) (n + 1)
      else if Ascii.eqb c "_" then
             if us then None else int_digits s' true acc n
           else None
  end.

(** CPython's default [sys.int_max_str_digits]. *)
Definition int_max_str_digits : N := 4300.

Definition int_unsigned (s : string) : option Z :=
  match s with
  | EmptyString => None
  | String c s' =>
      if is_digit c then
        match int_digits s' false (digit_value c) 1 with
        | Some (v, n) => if (int_max_str_digits <? n)%N then None else Some v
        | None => None
        end
      else None
  end.

(** [int(s)] in base 10: [None] stands for [ValueError].  Surrounding
    white space is ignored, then an optional sign and the digits follow. *)
Definition int (s : string) : option Z :=
  match strip s with
  | String "+" s' => int_unsigned s'
  | String "-" s' => option_map Z.opp (int_unsigned s')
  | s' => int_unsigned s'
  end.

End PyStr.

(* ------------------------------------------------------------------ *)
(** ** The table of commit types and the draft *)

Definition COMMIT_TYPES : list (string * string) :=
  [ ("feat", "A new feature");
    ("fix", "A bug fix");
    ("docs", "Documentation only changes");
    ("style", "Changes that do not affect the meaning of the code");
    ("refactor", "A code change that neither fixes a bug nor adds a feature");
    ("perf", "A code change that improves performance");
    ("test", "Adding missing tests or correcting existing tests");
    ("chore", "Changes to the build process or auxiliary tools");
    ("build", "Changes that affect the build system or external dependencies");
    ("ci", "Changes to CI configuration files and scripts");
    ("revert", "Reverts a previous commit") ].

(** [list(COMMIT_TYPES.keys())], in insertion order. *)
Definition keys : list string := map fst COMMIT_TYPES.

(** [t in COMMIT_TYPES] *)
Definition is_commit_type (t : string) : bool :=
  existsb (String.eqb t) keys.

(** The fields of a [CommitHelper] object. *)
Record CommitHelper : Type := mkHelper {
  type : string;
  scope : string;
  description : string;
  body : string;
  breaking : bool
}.

(** [CommitHelper.__init__] *)
Definition init : CommitHelper := mkHelper "" "" "" "" false.

(* ------------------------------------------------------------------ *)
(** ** [build_message] *)

Definition BREAKING_PARAGRAPH : string :=
  "BREAKING CHANGE: This commit introduces breaking changes.".

Definition LF : string := String "010" EmptyString.

(** The [header] variable of [build_message]. *)
Definition header (self : CommitHelper) : string :=
  let h := type self in
  let h := if PyStr.truthy (scope self) then h ++ "(" ++ scope self ++ ")" else h in
  let h := if breaking self then h ++ "!" else h in
  h ++ ": " ++ description self.

(** The [parts] list of [build_message], as it is when it is joined. *)
Definition parts (self : CommitHelper) : list string :=
  let ps := [header self] in
  let ps := if PyStr.truthy (body self) then (ps ++ [""; body self])%list else ps in
  let ps := if breaking self then (ps ++ [""; BREAKING_PARAGRAPH])%list else ps in
  ps.

Definition build_message (self : CommitHelper) : string :=
  PyStr.join LF (parts self).

(* ------------------------------------------------------------------ *)
(** ** Console, subprocesses and the computation monad *)

Inductive stdin_event : Type :=
| Line (s : string)      (* a line typed at the prompt, without its line feed *)
| CtrlC.                 (* the user interrupts while [input()] waits *)

(** The prompts passed to [input]. *)
Inductive prompt : Type :=
| AskNumber              (* "Enter number (1-11): " *)
| AskScope               (* "Scope (optional, press Enter to skip): " *)
| AskDescription         (* "Brief description (required): " *)
| AskContinue            (* "Continue anyway? (y/n): " *)
| AskBodyLine            (* [input()] without a prompt *)
| AskBreaking            (* "Is this a BREAKING CHANGE? (y/n): " *)
| AskCommit.             (* "Commit with this message? (y/n): " *)

(** The texts passed to [print]. *)
Inductive console_msg : Type :=
| SelectTitle                             (* "Select commit type:" *)
| TypeLine (i : nat) (t descr : string)   (* "  i. type - description" *)
| InvalidSelection                        (* "Invalid selection. Try again." *)
| Cancelled                               (* "Cancelled." *)
| LongWarning                             (* "Warning: Description is quite long..." *)
| DescriptionRequired                     (* "Description is required." *)
| BodyTitle                               (* "Extended description (optional...):" *)
| BodyHint                                (* "(Enter a blank line when done)" *)
| Rule                                    (* sixty "=" signs *)
| InteractiveTitle                        (* "Git Commit Helper - Interactive Mode" *)
| GeneratedTitle                          (* "Generated commit message:" *)
| Text (message : string)                 (* the message itself *)
| CommitCancelled                         (* "Commit cancelled." *)
| CommitSuccessful                        (* "Commit successful!" *)
| CommitFailed                            (* "Commit failed: ..." *)
| GitNotFound                             (* "Git not found. Make sure git is installed..." *)
| StatusFailed                            (* "Failed to get git status" *)
| StatusGitNotFound                       (* "Git not found" *)
| TypesTitle                              (* "Conventional Commit Types:" *)
| TypeRow (t descr : string)              (* "  type - description" *)
| InvalidType (t : string)                (* "Invalid commit type: t" *)
| ValidTypes (ts : string).               (* "Valid types: ..." *)

Inductive event : Type :=
| Prompt (p : prompt)                     (* [input(p)] was called *)
| Print (m : console_msg)                 (* [print(m)] *)
| Run (argv : list string).               (* [subprocess.run(argv, check=True)] *)

(** How a [subprocess.run(..., check=True)] call ends: it returns, or it
    raises one of the two exceptions the program has handlers for, or it
    raises anything else ([ValueError] for an argument with a null
    character, [PermissionError], a [KeyboardInterrupt] while the child
    runs, ...). *)
Inductive proc_outcome : Type :=
| Completed
| CalledProcessError
| FileNotFoundError
| OtherException.

(** The exceptions no handler of the program is written for: the two that
    [input] raises, and whatever [subprocess.run] raises besides
    [CalledProcessError] and [FileNotFoundError]. *)
Inductive exn : Type :=
| EOFError
| KeyboardInterrupt
| SubprocessException.

Inductive result (A : Type) : Type :=
| Return (a : A)         (* the function returns *)
| SysExit (code : Z)     (* [sys.exit(code)] *)
| Raise (e : exn).       (* an exception leaves the function *)

Arguments Return {A} a.
Arguments SysExit {A} code.
Arguments Raise {A} e.

Record run (A : Type) : Type := mkRun {
  res : result A;
  unread : list stdin_event;
  emitted : list event
}.

Arguments mkRun {A} res unread emitted.
Arguments res {A} r.
Arguments unread {A} r.
Arguments emitted {A} r.

Definition M (A : Type) : Type := list stdin_event -> run A.

Definition ret {A} (a : A) : M A := fun inp => mkRun (Return a) inp [].

(** [r], with the events [evs] emitted before it. *)
Definition after {A} (evs : list event) (r : run A) : run A :=
  mkRun (res r) (unread r) (evs ++ emitted r).

Definition bind {A B} (m : M A) (f : A -> M B) : M B := fun inp =>
  let r := m inp in
  match res r with
  | Return a => after (emitted r) (f a (unread r))
  | SysExit c => mkRun (SysExit c) (unread r) (emitted r)
  | Raise e => mkRun (Raise e) (unread r) (emitted r)
  end.

Notation "x <- m ;; k" := (bind m (fun x => k))
  (at level 61, m at next level, right associativity).
Notation "m ;;; k" := (bind m (fun _ => k))
  (at level 61, right associativity).

Definition print (m : console_msg) : M unit := fun inp =>
  mkRun (Return tt) inp [Print m].

Definition sys_exit {A} (code : Z) : M A := fun inp =>
  mkRun (SysExit code) inp [].

(** [input(p)]: the next line, [KeyboardInterrupt] on Ctrl-C, [EOFError]
    at the end of the input. *)
Definition input (p : prompt) : M string := fun inp =>
  match inp with
  | [] => mkRun (Raise EOFError) [] [Prompt p]
  | CtrlC :: rest => mkRun (Raise KeyboardInterrupt) rest [Prompt p]
  | Line l :: rest => mkRun (Return l) rest [Prompt p]
  end.

Fixpoint print_all (ms : list console_msg) : M unit :=
  match ms with
  | [] => ret tt
  | m :: ms' => print m ;;; print_all ms'
  end.

(* ------------------------------------------------------------------ *)
(** ** The prompts of [CommitHelper] *)

(** [COMMIT_TYPES[t]] for a key [t]. *)
Definition describe (t : string) : string :=
  match find (fun kv => String.eqb t (fst kv)) COMMIT_TYPES with
  | Some kv => snd kv
  | None => ""
  end.

(** [enumerate(types, 1)] *)
Definition enumerate1 (types : list string) : list (nat * string) :=
  combine (seq 1 (length types)) types.

(** The [while True] loop of [select_type].  Both [ValueError] (from
    [int]) and [KeyboardInterrupt] (from [input]) reach the handler that
    prints "Cancelled." and calls [sys.exit(1)]; [EOFError] is not
    handled. *)
Fixpoint select_type_loop (types : list string) (inp : list stdin_event)
  : run string :=
  match inp with
  | [] => mkRun (Raise EOFError) [] [Prompt AskNumber]
  | CtrlC :: rest => mkRun (SysExit 1) rest [Prompt AskNumber; Print Cancelled]
  | Line l :: rest =>
      let choice := PyStr.strip l in
      match PyStr.int choice with
      | None => mkRun (SysExit 1) rest [Prompt AskNumber; Print Cancelled]
      | Some n =>
          let idx := (n - 1)%Z in
          if ((0 <=? idx) && (idx <? Z.of_nat (length types)))%Z then
            mkRun (Return (nth (Z.to_nat idx) types "")) rest [Prompt AskNumber]
          else
            after [Prompt AskNumber; Print InvalidSelection]
                  (select_type_loop types rest)
      end
  end.

Definition select_type : M string :=
  print SelectTitle ;;;
  let types := keys in
  print_all (map (fun it => TypeLine (fst it) (snd it) (describe (snd it)))
                 (enumerate1 types)) ;;;
  select_type_loop types.

Definition get_scope : M string :=
  scope <- input AskScope ;;
  ret (PyStr.strip scope).

(** [get_description]: the function is its [while True] loop.  A long
    description that is not confirmed falls through to the message
    "Description is required." and the next round. *)
Fixpoint get_description (inp : list stdin_event) : run string :=
  match inp with
  | [] => mkRun (Raise EOFError) [] [Prompt AskDescription]
  | CtrlC :: rest => mkRun (Raise KeyboardInterrupt) rest [Prompt AskDescription]
  | Line l :: rest =>
      let desc := PyStr.strip l in
      if PyStr.truthy desc then
        if (72 <? String.length desc)%nat then
          match rest with
          | [] =>
              mkRun (Raise EOFError) []
                    [Prompt AskDescription; Print LongWarning; Prompt AskContinue]
          | CtrlC :: rest' =>
              mkRun (Raise KeyboardInterrupt) rest'
                    [Prompt AskDescription; Print LongWarning; Prompt AskContinue]
          | Line c :: rest' =>
              let confirm := PyStr.lower (PyStr.strip c) in
              if String.eqb confirm "y" then
                mkRun (Return desc) rest'
                      [Prompt AskDescription; Print LongWarning; Prompt AskContinue]
              else
                after [Prompt AskDescription; Print LongWarning;
                       Prompt AskContinue; Print DescriptionRequired]
                      (get_description rest')
          end
        else mkRun (Return desc) rest [Prompt AskDescription]
      else
        after [Prompt AskDescription; Print DescriptionRequired]
              (get_description rest)
  end.

(** The loop of [get_body]; [lines] is the list collected so far. *)
Fixpoint get_body_loop (lines : list string) (inp : list stdin_event)
  : run string :=
  match inp with
  | [] => mkRun (Raise EOFError) [] [Prompt AskBodyLine]
  | CtrlC :: rest => mkRun (Raise KeyboardInterrupt) rest [Prompt AskBodyLine]
  | Line line :: rest =>
      if negb (PyStr.truthy line) then
        mkRun (Return (PyStr.join LF lines)) rest [Prompt AskBodyLine]
      else
        after [Prompt AskBodyLine] (get_body_loop (lines ++ [line])%list rest)
  end.

Definition get_body : M string :=
  print BodyTitle ;;;
  print BodyHint ;;;
  get_body_loop [].

Definition check_breaking : M bool :=
  response <- input AskBreaking ;;
  ret (String.eqb (PyStr.lower (PyStr.strip response)) "y").

(** The five assignments of [interactive_commit]: the object as it is
    when [build_message] is called on it. *)
Definition interactive_draft : M CommitHelper :=
  t <- select_type ;;
  s <- get_scope ;;
  d <- get_description ;;
  b <- get_body ;;
  br <- check_breaking ;;
  ret (mkHelper t s d b br).

(** The assignments [self.type = v], [self.scope = v] and
    [self.description = v]. *)
Definition set_type (self : CommitHelper) (v : string) : CommitHelper :=
  let (_, s, d, b, br) := self in mkHelper v s d b br.

Definition set_scope (self : CommitHelper) (v : string) : CommitHelper :=
  let (t, _, d, b, br) := self in mkHelper t v d b br.

Definition set_description (self : CommitHelper) (v : string) : CommitHelper :=
  let (t, s, _, b, br) := self in mkHelper t s v b br.

(** [scope or ""] *)
Definition or_empty (scope : option string) : string :=
  match scope with
  | Some s => s
  | None => ""
  end.

(** The assignments of [quick_commit] on a fresh object: the object as it
    is when [build_message] is called on it. *)
Definition quick_draft (commit_type description : string)
    (scope : option string) : CommitHelper :=
  let helper := init in
  let helper := set_type helper commit_type in
  let helper := set_scope helper (or_empty scope) in
  let helper := set_description helper description in
  helper.

(** The parsed command line. *)
Record Args : Type := mkArgs {
  args_quick : option (string * string);   (* -q TYPE DESC *)
  args_scope : option string;              (* -s SCOPE *)
  args_status : bool;                      (* --status *)
  args_types : bool                        (* --types *)
}.

Section Program.

(** The outcome of each subprocess call, from its argument vector. *)
Variable git : list string -> proc_outcome.

Definition execute_commit (message : string) : M bool := fun inp =>
  let argv := ["git"; "commit"; "-m"; message] in
  match git argv with
  | Completed => mkRun (Return true) inp [Run argv; Print CommitSuccessful]
  | CalledProcessError => mkRun (Return false) inp [Run argv; Print CommitFailed]
  | FileNotFoundError => mkRun (Return false) inp [Run argv; Print GitNotFound]
  | OtherException => mkRun (Raise SubprocessException) inp [Run argv]
  end.

Definition interactive_commit : M bool :=
  print Rule ;;;
  print InteractiveTitle ;;;
  print Rule ;;;
  self <- interactive_draft ;;
  let message := build_message self in
  print Rule ;;;
  print GeneratedTitle ;;;
  print Rule ;;;
  print (Text message) ;;;
  print Rule ;;;
  confirm <- input AskCommit ;;
  if String.eqb (PyStr.lower (PyStr.strip confirm)) "y" then
    execute_commit message
  else
    print CommitCancelled ;;;
    ret false.

Definition quick_commit (commit_type description : string)
    (scope : option string) : M bool :=
  let helper := quick_draft commit_type description scope in
  let message := build_message helper in
  execute_commit message.

Definition show_status : M unit := fun inp =>
  let argv := ["git"; "status"; "--short"] in
  match git argv with
  | Completed => mkRun (Return tt) inp [Run argv]
  | CalledProcessError => mkRun (Return tt) inp [Run argv; Print StatusFailed]
  | FileNotFoundError => mkRun (Return tt) inp [Run argv; Print StatusGitNotFound]
  | OtherException => mkRun (Raise SubprocessException) inp [Run argv]
  end.

Definition show_types : M unit :=
  print TypesTitle ;;;
  print Rule ;;;
  print_all (map (fun kv => TypeRow (fst kv) (snd kv)) COMMIT_TYPES) ;;;
  print Rule.

Definition main (args : Args) : M unit :=
  if args_status args then show_status
  else if args_types args then show_types
  else
    match args_quick args with
    | Some (commit_type, description) =>
        if negb (is_commit_type commit_type) then
          print (InvalidType commit_type) ;;;
          print (ValidTypes (PyStr.join ", " keys)) ;;;
          sys_exit 1
        else
          ok <- quick_commit commit_type description (args_scope args) ;;
          if ok then sys_exit 0 else sys_exit 1
    | None =>
        ok <- interactive_commit ;;
        if ok then sys_exit 0 else sys_exit 1
    end.

End Program.

(* ------------------------------------------------------------------ *)
(** ** The message format in the words of the specification *)

(** The header as the specification writes it:
    [type(scope)!: description], [type(scope): description],
    [type!: description] or [type: description]. *)
Definition spec_header (t s d : string) (br : bool) : string :=
  match PyStr.truthy s, br with
  | true, true => t ++ "(" ++ s ++ ")!: " ++ d
  | true, false => t ++ "(" ++ s ++ "): " ++ d
  | false, true => t ++ "!: " ++ d
  | false, false => t ++ ": " ++ d
  end.

(** The blank line and paragraph that follow the header for a body [b]. *)
Definition body_paragraph (b : string) : string :=
  if PyStr.truthy b then LF ++ LF ++ b else "".

(** The blank line and paragraph that close a breaking commit. *)
Definition breaking_paragraph (br : bool) : string :=
  if br then LF ++ LF ++ BREAKING_PARAGRAPH else "".

Definition lf : ascii := "010"%char.

(** A string of white space only. *)
Fixpoint all_space (s : string) : bool :=
  match s with
  | EmptyString => true
  | String c s' => PyStr.isspace c && all_space s'
  end.

(** An answer that says yes: "y" or "Y", with white space around it. *)
Definition affirmative (s : string) : Prop :=
  exists a b, all_space a = true /\ all_space b = true
              /\ (s = a ++ "y" ++ b \/ s = a ++ "Y" ++ b).

(** An entry that [int] reads as a number outside [1..count]. *)
Definition out_of_range (count : nat) (e : stdin_event) : Prop :=
  exists l n, e = Line l /\ PyStr.int (PyStr.strip l) = Some n
              /\ ~ (1 <= n <= Z.of_nat count)%Z.

(** What [select_type] prints before its first prompt. *)
Definition menu : list event :=
  Print SelectTitle
    :: map (fun it => Print (TypeLine (fst it) (snd it) (describe (snd it))))
           (enumerate1 keys).

(** The command line of a run in interactive mode. *)
Definition interactive_args : Args := mkArgs None None false false.

(** The argument vectors of the subprocess calls among [evs], in order. *)
Fixpoint runs (evs : list event) : list (list string) :=
  match evs with
  | [] => []
  | Run argv :: evs' => argv :: runs evs'
  | _ :: evs' => runs evs'
  end.

(** The argument vector of [execute_commit]. *)
Definition commit_argv (message : string) : list string :=
  ["git"; "commit"; "-m"; message].

(** A run that calls no subprocess, so that no exception of a subprocess
    call leaves it, and that, when it ends in [sys.exit], ends with
    code 1. *)
Definition quiet {A : Type} (r : run A) : Prop :=
  runs (emitted r) = []
  /\ (forall c, res r = SysExit c -> c = 1%Z)
  /\ res r <> Raise SubprocessException.

(** [m] reads its input from the front: when it returns, input added
    behind what it was given is left unread and changes nothing else. *)
Definition frames {A : Type} (m : M A) : Prop :=
  forall L X a,
    res (m L) = Return a ->
    m (L ++ X)%list = mkRun (Return a) (unread (m L) ++ X)%list (emitted (m L)).

(** Where [m] meets the end of its input, Ctrl-C in that place leaves it as
    a [KeyboardInterrupt]. *)
Definition raises_on_interrupt {A : Type} (m : M A) : Prop :=
  forall L X,
    res (m L) = Raise EOFError ->
    res (m (L ++ CtrlC :: X)%list) = Raise KeyboardInterrupt.

(** The exit codes of the program. *)
Definition exit_code_of (ok : bool) : Z := if ok then 0%Z else 1%Z.

(* ------------------------------------------------------------------ *)
(** ** Facts about strings *)

Section StringFacts.

Lemma append_assoc (a b c : string) : (a ++ b) ++ c = a ++ b ++ c.
Proof.
  induction a as [|x a IH]; simpl; [reflexivity | now rewrite IH].
Qed.

Lemma append_empty_r (a : string) : a ++ "" = a.
Proof.
  induction a as [|x a IH]; simpl; [reflexivity | now rewrite IH].
Qed.

Lemma truthy_true (s : string) : PyStr.truthy s = true <-> s <> "".
Proof.
  destruct s; simpl; split; intros; congruence.
Qed.

Lemma truthy_false (s : string) : PyStr.truthy s = false <-> s = "".
Proof.
  destruct s; simpl; split; intros; congruence.
Qed.

Lemma has_char_append (c : ascii) (a b : string) :
  PyStr.has_char c (a ++ b) = PyStr.has_char c a || PyStr.has_char c b.
Proof.
  induction a as [|x a IH]; simpl; [reflexivity|].
  now rewrite IH, orb_assoc.
Qed.

Lemma first_line_no_lf (a : string) :
  PyStr.has_char lf a = false -> PyStr.first_line a = a.
Proof.
  induction a as [|x a IH]; [reflexivity|].
  cbn [PyStr.has_char PyStr.first_line append].
  intros H. apply orb_false_elim in H as [Hx Ha].
  rewrite Ascii.eqb_sym in Hx. unfold lf in Hx. rewrite Hx.
  now rewrite IH.
Qed.

Lemma first_line_append (a b : string) :
  PyStr.has_char lf a = false ->
  PyStr.first_line (a ++ b) = a ++ PyStr.first_line b.
Proof.
  induction a as [|x a IH]; [reflexivity|].
  cbn [PyStr.has_char PyStr.first_line append].
  intros H. apply orb_false_elim in H as [Hx Ha].
  rewrite Ascii.eqb_sym in Hx. unfold lf in Hx. rewrite Hx.
  now rewrite IH.
Qed.

Lemma startswith_append (p a b : string) :
  PyStr.startswith p a = true -> PyStr.startswith p (a ++ b) = true.
Proof.
  revert a. induction p as [|y p IH]; intros [|x a]; simpl; try congruence.
  intros H. apply andb_true_iff in H as [Hy Hp].
  now rewrite Hy, IH.
Qed.

(** A character that does not occur in [p] cuts every match of [p]. *)
Lemma startswith_cut (c : ascii) (p a b : string) :
  PyStr.has_char c p = false ->
  PyStr.startswith p (a ++ String c b) = PyStr.startswith p a.
Proof.
  revert a. induction p as [|y p IH]; intros a H; [now destruct a|].
  simpl in H. apply orb_false_elim in H as [Hy Hp].
  destruct a as [|x a]; simpl.
  - rewrite Ascii.eqb_sym, Hy. reflexivity.
  - now rewrite IH.
Qed.

Lemma contains_cut (c : ascii) (p a b : string) :
  PyStr.has_char c p = false ->
  PyStr.contains p (a ++ String c b)
  = PyStr.contains p a || PyStr.contains p b.
Proof.
  intros H. induction a as [|x a IH].
  - change ("" ++ String c b) with (String c b).
    cbn [PyStr.contains].
    rewrite (startswith_cut c p "" b H : PyStr.startswith p (String c b) = _).
    now rewrite orb_false_r.
  - change (String x a ++ String c b) with (String x (a ++ String c b)).
    cbn [PyStr.contains].
    rewrite IH.
    rewrite (startswith_cut c p (String x a) b H
             : PyStr.startswith p (String x (a ++ String c b)) = _).
    now rewrite orb_assoc.
Qed.

(** A first character other than that of [p] can be dropped. *)
Lemma contains_skip (y c : ascii) (p b : string) :
  Ascii.eqb y c = false ->
  PyStr.contains (String y p) (String c b) = PyStr.contains (String y p) b.
Proof.
  intros H. cbn [PyStr.contains PyStr.startswith]. now rewrite H.
Qed.

End StringFacts.

(* ------------------------------------------------------------------ *)
(** ** [build_message]: header, body and breaking-change paragraph *)

Section BuildMessage.

Lemma keys_eq :
  keys = ["feat"; "fix"; "docs"; "style"; "refactor"; "perf"; "test";
          "chore"; "build"; "ci"; "revert"].
Proof. reflexivity. Qed.

Lemma is_commit_type_In (t : string) : is_commit_type t = true <-> In t keys.
Proof.
  unfold is_commit_type. rewrite existsb_exists. split.
  - intros [k [Hk E]]. apply String.eqb_eq in E. now subst.
  - intros H. exists t. split; [assumption | apply String.eqb_refl].
Qed.

Lemma keys_no_lf (t : string) : In t keys -> PyStr.has_char lf t = false.
Proof.
  rewrite keys_eq. simpl. intuition (subst; reflexivity).
Qed.

Lemma header_eq (self : CommitHelper) :
  header self
  = spec_header (type self) (scope self) (description self) (breaking self).
Proof.
  destruct self as [t s d b br]. unfold header, spec_header. cbn [type scope description breaking body].
  destruct (PyStr.truthy s), br; repeat rewrite append_assoc; reflexivity.
Qed.

Lemma parts_eq (self : CommitHelper) :
  parts self
  = (header self
       :: (if PyStr.truthy (body self) then [""; body self] else [])
       ++ (if breaking self then [""; BREAKING_PARAGRAPH] else []))%list.
Proof.
  unfold parts. destruct (PyStr.truthy (body self)), (breaking self); reflexivity.
Qed.

Lemma build_message_eq (self : CommitHelper) :
  build_message self
  = header self ++ body_paragraph (body self)
      ++ breaking_paragraph (breaking self).
Proof.
  unfold build_message, body_paragraph, breaking_paragraph. rewrite parts_eq.
  destruct (PyStr.truthy (body self)), (breaking self);
    cbn [PyStr.join app append LF];
    repeat rewrite append_empty_r; reflexivity.
Qed.

(** C1: for a draft whose type is one of the commit types and whose
    description is not empty, the header built by [build_message] is
    [type(scope)!: description], [type(scope): description],
    [type!: description] or [type: description], by whether the scope is
    set and the breaking flag is on.  It is the first of the parts that
    are joined by line feeds, so the message is the header followed by
    nothing or by a line feed; when neither scope nor description holds a
    line feed, it is the first line of the message. *)
Theorem build_message_header (self : CommitHelper) :
  In (type self) keys ->
  description self <> "" ->
  let h := spec_header (type self) (scope self) (description self)
                       (breaking self) in
  header self = h
  /\ hd_error (parts self) = Some h
  /\ (exists tail, build_message self = h ++ tail
                   /\ (tail = "" \/ PyStr.startswith LF tail = true))
  /\ (PyStr.has_char lf (scope self) = false ->
      PyStr.has_char lf (description self) = false ->
      PyStr.first_line (build_message self) = h).
Proof.
  intros Hty _ h. subst h. rewrite <- header_eq.
  split; [reflexivity|]. split; [now rewrite parts_eq|]. split.
  - exists (body_paragraph (body self) ++ breaking_paragraph (breaking self)).
    split; [apply build_message_eq|].
    unfold body_paragraph, breaking_paragraph.
    destruct (PyStr.truthy (body self)), (breaking self); auto.
  - intros Hs Hd. rewrite build_message_eq.
    assert (Hh : PyStr.has_char lf (header self) = false).
    { rewrite header_eq. unfold spec_header.
      pose proof (keys_no_lf _ Hty) as Ht.
      destruct (PyStr.truthy (scope self)), (breaking self);
        repeat (rewrite has_char_append; cbn [PyStr.has_char]);
        rewrite ?Ht, ?Hs, ?Hd; reflexivity. }
    rewrite first_line_append by assumption.
    unfold body_paragraph, breaking_paragraph.
    destruct (PyStr.truthy (body self)), (breaking self);
      cbn; apply append_empty_r.
Qed.

(** The header theorem at a draft with scope and breaking flag. *)
Lemma build_message_header_witness :
  build_message (mkHelper "feat" "auth" "Add login" "" true)
  = "feat(auth)!: Add login" ++ LF ++ LF ++ BREAKING_PARAGRAPH
  /\ PyStr.first_line (build_message (mkHelper "feat" "auth" "Add login" "" true))
     = "feat(auth)!: Add login".
Proof.
  pose proof (build_message_header (mkHelper "feat" "auth" "Add login" "" true))
    as H.
  cbn [type scope description breaking] in H.
  assert (Hin : In "feat" keys) by (left; reflexivity).
  assert (Hne : "Add login" <> "") by discriminate.
  destruct (H Hin Hne) as (_ & _ & _ & Hfl).
  split; [reflexivity | exact (Hfl eq_refl eq_refl)].
Defined.

Lemma endswith_append (p a : string) : PyStr.endswith p (a ++ p) = true.
Proof.
  induction a as [|x a IH].
  - destruct p; cbn [append PyStr.endswith]; now rewrite String.eqb_refl.
  - change (String x a ++ p) with (String x (a ++ p)).
    cbn [PyStr.endswith]. rewrite IH. apply orb_true_r.
Qed.

(** Where "BREAKING CHANGE" can occur in a message: the separators that
    [build_message] writes between the fields hold a character that the
    phrase does not hold, or come before a character it does not start
    with. *)
Lemma contains_breaking_change (self : CommitHelper) :
  PyStr.contains "BREAKING CHANGE" (build_message self)
  = breaking self
    || PyStr.contains "BREAKING CHANGE" (type self)
    || PyStr.contains "BREAKING CHANGE" (scope self)
    || PyStr.contains "BREAKING CHANGE" (description self)
    || PyStr.contains "BREAKING CHANGE" (body self).
Proof.
  rewrite build_message_eq, header_eq.
  destruct self as [t s d b br].
  cbn [type scope description breaking body].
  unfold spec_header, body_paragraph, breaking_paragraph.
  destruct (PyStr.truthy s) eqn:Hs, (PyStr.truthy b) eqn:Hb, br;
    try (apply truthy_false in Hs; subst s);
    try (apply truthy_false in Hb; subst b);
    repeat rewrite append_assoc;
    cbn [append LF];
    repeat first
      [ rewrite contains_cut by reflexivity
      | rewrite (contains_cut _ _ "") by reflexivity
      | rewrite contains_skip by reflexivity
      | rewrite append_empty_r ];
    change (PyStr.contains "BREAKING CHANGE" "") with false;
    change (PyStr.contains "BREAKING CHANGE" BREAKING_PARAGRAPH) with true;
    rewrite ?orb_false_r, ?orb_true_r, ?orb_false_l; cbn [orb];
    rewrite ?orb_false_r, ?orb_true_r, ?orb_assoc;
    reflexivity.
Qed.

(** C2, as stated, fails: a draft whose breaking flag is off and whose body
    is the text of the breaking-change paragraph gives a message that ends
    with that paragraph after one blank line, and that holds the phrase
    "BREAKING CHANGE". *)
Lemma breaking_paragraph_without_flag :
  breaking (mkHelper "feat" "" "Drop the v1 API" BREAKING_PARAGRAPH false)
  = false
  /\ build_message
       (mkHelper "feat" "" "Drop the v1 API" BREAKING_PARAGRAPH false)
     = "feat: Drop the v1 API" ++ LF ++ LF ++ BREAKING_PARAGRAPH
  /\ PyStr.endswith (LF ++ LF ++ BREAKING_PARAGRAPH)
       (build_message
          (mkHelper "feat" "" "Drop the v1 API" BREAKING_PARAGRAPH false))
     = true
  /\ PyStr.contains "BREAKING CHANGE"
       (build_message
          (mkHelper "feat" "" "Drop the v1 API" BREAKING_PARAGRAPH false))
     = true.
Proof. repeat split; vm_compute; reflexivity. Qed.

(** C2, amended: when the breaking flag is on, the message is the header
    and body followed by one blank line and the paragraph
    "BREAKING CHANGE: This commit introduces breaking changes.", with which
    it ends; when the flag is off, nothing follows the header and body.
    The phrase "BREAKING CHANGE" occurs in the message exactly when the flag
    is on or the type, scope, description or body of the draft holds it. *)
Theorem build_message_breaking (self : CommitHelper) :
  build_message self
  = (header self ++ body_paragraph (body self))
      ++ (if breaking self then LF ++ LF ++ BREAKING_PARAGRAPH else "")
  /\ (if breaking self
      then PyStr.endswith (LF ++ LF ++ BREAKING_PARAGRAPH)
                          (build_message self) = true
      else build_message self = header self ++ body_paragraph (body self))
  /\ PyStr.contains "BREAKING CHANGE" (build_message self)
     = breaking self
       || PyStr.contains "BREAKING CHANGE" (type self)
       || PyStr.contains "BREAKING CHANGE" (scope self)
       || PyStr.contains "BREAKING CHANGE" (description self)
       || PyStr.contains "BREAKING CHANGE" (body self).
Proof.
  assert (E : build_message self
              = (header self ++ body_paragraph (body self))
                  ++ (if breaking self
                      then LF ++ LF ++ BREAKING_PARAGRAPH else "")).
  { rewrite build_message_eq, append_assoc. reflexivity. }
  split; [exact E|]. split; [|apply contains_breaking_change].
  rewrite E. destruct (breaking self).
  - apply endswith_append.
  - apply append_empty_r.
Qed.

(** C3: a body that is not empty is a part of its own after the header,
    and before the breaking-change paragraph when the flag is on, with one
    empty part (a blank line) on either side; with an empty body the header
    is followed at once by the breaking-change paragraph, or by nothing. *)
Theorem build_message_body (self : CommitHelper) :
  (body self <> "" ->
   parts self
   = (header self :: "" :: body self
        :: (if breaking self then [""; BREAKING_PARAGRAPH] else []))%list
   /\ build_message self
      = header self ++ LF ++ LF ++ body self
          ++ (if breaking self then LF ++ LF ++ BREAKING_PARAGRAPH else ""))
  /\ (body self = "" ->
      parts self
      = (header self
           :: (if breaking self then [""; BREAKING_PARAGRAPH] else []))%list
      /\ build_message self
         = header self
             ++ (if breaking self then LF ++ LF ++ BREAKING_PARAGRAPH else "")).
Proof.
  split; intros Hb.
  - apply truthy_true in Hb.
    rewrite build_message_eq, parts_eq. unfold body_paragraph. rewrite Hb.
    split; [reflexivity|]. now rewrite !append_assoc.
  - rewrite build_message_eq, parts_eq. unfold body_paragraph. rewrite Hb.
    split; reflexivity.
Qed.

(** The body theorem at a draft with a two-line body and at one without
    a body. *)
Lemma build_message_body_witness :
  build_message (mkHelper "fix" "" "Fix crash" ("line one" ++ LF ++ "line two") true)
  = "fix!: Fix crash" ++ LF ++ LF ++ "line one" ++ LF ++ "line two"
      ++ LF ++ LF ++ BREAKING_PARAGRAPH
  /\ build_message (mkHelper "fix" "" "Fix crash" "" false) = "fix: Fix crash".
Proof.
  split.
  - destruct (build_message_body
                (mkHelper "fix" "" "Fix crash" ("line one" ++ LF ++ "line two") true))
      as [H _].
    destruct H as [_ H]; [vm_compute; discriminate | exact H].
  - destruct (build_message_body (mkHelper "fix" "" "Fix crash" "" false))
      as [_ H].
    destruct H as [_ H]; [reflexivity | exact H].
Defined.

(** C4: the two examples of the specification. *)
Theorem build_message_examples :
  build_message (mkHelper "feat" "auth" "Add login" "" false)
  = "feat(auth): Add login"
  /\ build_message (mkHelper "fix" "" "Fix null pointer" "" true)
     = "fix!: Fix null pointer" ++ LF ++ LF
         ++ "BREAKING CHANGE: This commit introduces breaking changes.".
Proof. split; reflexivity. Qed.

End BuildMessage.

(* ------------------------------------------------------------------ *)
(** ** [strip] and [lower] *)

Section StripLower.

Lemma lstrip_split (s : string) :
  exists a, s = a ++ PyStr.lstrip s /\ all_space a = true.
Proof.
  induction s as [|c s [a [E Ha]]].
  - now exists "".
  - cbn [PyStr.lstrip]. destruct (PyStr.isspace c) eqn:Hc.
    + exists (String c a). cbn [append all_space]. rewrite Hc, Ha.
      now rewrite <- E.
    + now exists "".
Qed.

Lemma rstrip_split (s : string) :
  exists b, s = PyStr.rstrip s ++ b /\ all_space b = true.
Proof.
  induction s as [|c s [b [E Hb]]].
  - now exists "".
  - cbn [PyStr.rstrip]. destruct (PyStr.rstrip s) as [|x r] eqn:Hr.
    + destruct (PyStr.isspace c) eqn:Hc.
      * exists (String c s). cbn [append all_space]. rewrite Hc.
        split; [reflexivity|]. rewrite E. exact Hb.
      * exists b. cbn [append]. split; [now rewrite E at 1 | exact Hb].
    + exists b. cbn [append]. split; [|exact Hb].
      f_equal. exact E.
Qed.

Lemma strip_split (s : string) :
  exists a b, s = a ++ PyStr.strip s ++ b
              /\ all_space a = true /\ all_space b = true.
Proof.
  destruct (lstrip_split s) as [a [Ea Ha]].
  destruct (rstrip_split (PyStr.lstrip s)) as [b [Eb Hb]].
  exists a, b. unfold PyStr.strip. rewrite <- Eb, <- Ea. auto.
Qed.

Lemma lstrip_all_space (a t : string) :
  all_space a = true -> PyStr.lstrip (a ++ t) = PyStr.lstrip t.
Proof.
  induction a as [|c a IH]; [reflexivity|].
  cbn [all_space append PyStr.lstrip]. intros H.
  apply andb_true_iff in H as [Hc Ha]. rewrite Hc. auto.
Qed.

Lemma rstrip_all_space (b : string) :
  all_space b = true -> PyStr.rstrip b = "".
Proof.
  induction b as [|c b IH]; [reflexivity|].
  cbn [all_space PyStr.rstrip]. intros H.
  apply andb_true_iff in H as [Hc Hb]. now rewrite IH, Hc.
Qed.

Lemma rstrip_append_space (t b : string) :
  all_space b = true -> PyStr.rstrip (t ++ b) = PyStr.rstrip t.
Proof.
  intros Hb. induction t as [|c t IH].
  - now apply rstrip_all_space.
  - cbn [append PyStr.rstrip]. now rewrite IH.
Qed.

(** [lower] gives "y" for "y" and "Y" only. *)
Lemma lower_char_y (c : ascii) :
  PyStr.lower_char c = "y"%char <-> c = "y"%char \/ c = "Y"%char.
Proof.
  destruct c as [[] [] [] [] [] [] [] []]; vm_compute;
    (split; [intros H; first [discriminate H | auto]
            | intros [H|H]; first [discriminate H | reflexivity]]).
Qed.

Lemma lower_y (s : string) :
  PyStr.lower s = "y" <-> s = "y" \/ s = "Y".
Proof.
  destruct s as [|c [|c' s]]; cbn [PyStr.lower].
  - split; [discriminate | intros [H|H]; discriminate].
  - split.
    + intros H. injection H as H. apply lower_char_y in H as [->| ->]; auto.
    + intros [H|H]; injection H as ->; reflexivity.
  - split; [discriminate | intros [H|H]; discriminate].
Qed.

Lemma strip_y (s : string) (y : ascii) :
  PyStr.isspace y = false ->
  PyStr.strip s = String y "" <->
  exists a b, all_space a = true /\ all_space b = true
              /\ s = a ++ String y "" ++ b.
Proof.
  intros Hy. split.
  - intros E. destruct (strip_split s) as (a & b & Es & Ha & Hb).
    exists a, b. rewrite E in Es. auto.
  - intros (a & b & Ha & Hb & ->). unfold PyStr.strip.
    rewrite lstrip_all_space by assumption.
    cbn [append PyStr.lstrip]. rewrite Hy.
    change (String y b) with (String y "" ++ b).
    rewrite rstrip_append_space by assumption.
    cbn [PyStr.rstrip]. now rewrite Hy.
Qed.

Lemma lower_strip_y (s : string) :
  PyStr.lower (PyStr.strip s) = "y" <-> affirmative s.
Proof.
  rewrite lower_y. unfold affirmative.
  rewrite (strip_y s "y" eq_refl), (strip_y s "Y" eq_refl).
  split.
  - intros [(a & b & Ha & Hb & E)|(a & b & Ha & Hb & E)]; exists a, b; auto.
  - intros (a & b & Ha & Hb & [E|E]); [left|right]; exists a, b; auto.
Qed.

End StripLower.

(* ------------------------------------------------------------------ *)
(** ** Sequencing *)

Section Sequencing.

Context {A B : Type}.

Lemma bind_exit (m : M A) (f : A -> M B) (inp : list stdin_event) (c : Z) :
  res (m inp) = SysExit c ->
  bind m f inp = mkRun (SysExit c) (unread (m inp)) (emitted (m inp)).
Proof.
  intros H. unfold bind. now rewrite H.
Qed.

Lemma bind_return (m : M A) (f : A -> M B) (inp : list stdin_event) (a : A) :
  res (m inp) = Return a ->
  bind m f inp = after (emitted (m inp)) (f a (unread (m inp))).
Proof.
  intros H. unfold bind. now rewrite H.
Qed.

Lemma bind_print (x : console_msg) (k : M B) (inp : list stdin_event) :
  bind (print x) (fun _ => k) inp = after [Print x] (k inp).
Proof. reflexivity. Qed.

(** A sequence that returns has returned from both of its steps. *)
Lemma bind_returns (m : M A) (f : A -> M B) (inp : list stdin_event) (b : B) :
  res (bind m f inp) = Return b ->
  exists a, res (m inp) = Return a
            /\ res (f a (unread (m inp))) = Return b.
Proof.
  unfold bind. destruct (res (m inp)) as [a| |]; try discriminate.
  cbn [after res]. eauto.
Qed.

End Sequencing.

Lemma select_type_menu (inp : list stdin_event) :
  select_type inp = after menu (select_type_loop keys inp).
Proof. reflexivity. Qed.

Lemma menu_prints (e : event) : In e menu -> exists m, e = Print m.
Proof.
  intros [<-|He]; [eauto|].
  apply in_map_iff in He as (it & <- & _). eauto.
Qed.

(** A run in interactive mode ends where [select_type] exits. *)
Lemma main_exits_with_select_type (git : list string -> proc_outcome)
    (inp : list stdin_event) (c : Z) :
  res (select_type inp) = SysExit c ->
  main git interactive_args inp
  = mkRun (SysExit c) (unread (select_type inp))
          ([Print Rule; Print InteractiveTitle; Print Rule]
             ++ emitted (select_type inp)).
Proof.
  intros H.
  assert (H1 : interactive_draft inp
               = mkRun (SysExit c) (unread (select_type inp))
                       (emitted (select_type inp)))
    by (now apply bind_exit).
  assert (H2 : interactive_commit git inp
               = mkRun (SysExit c) (unread (select_type inp))
                       ([Print Rule; Print InteractiveTitle; Print Rule]
                          ++ emitted (select_type inp))).
  { unfold interactive_commit. rewrite !bind_print.
    rewrite (bind_exit _ _ _ c) by (now rewrite H1).
    rewrite H1. reflexivity. }
  unfold main, interactive_args. cbn [args_status args_types args_quick].
  rewrite (bind_exit _ _ _ c) by (now rewrite H2).
  rewrite H2. reflexivity.
Qed.

(* ------------------------------------------------------------------ *)
(** ** The prompt loops *)

Section Prompts.

(** C9: on an answer line, [check_breaking] returns [True] exactly when the
    trimmed, lower-cased answer is "y", that is, for "y" or "Y" with white
    space around it; every other answer, the empty one among them, gives
    [False]. *)
Theorem check_breaking_affirmative (response : string)
    (rest : list stdin_event) :
  exists answer,
    check_breaking (Line response :: rest)
    = mkRun (Return answer) rest [Prompt AskBreaking]
    /\ (answer = true <-> PyStr.lower (PyStr.strip response) = "y")
    /\ (answer = true <-> affirmative response)
    /\ (answer = false <-> ~ affirmative response)
    /\ res (check_breaking (Line "" :: rest)) = Return false.
Proof.
  exists (String.eqb (PyStr.lower (PyStr.strip response)) "y").
  split; [reflexivity|].
  assert (H1 : String.eqb (PyStr.lower (PyStr.strip response)) "y" = true
               <-> PyStr.lower (PyStr.strip response) = "y")
    by apply String.eqb_eq.
  assert (H2 : String.eqb (PyStr.lower (PyStr.strip response)) "y" = true
               <-> affirmative response)
    by (rewrite H1; apply lower_strip_y).
  repeat split; try apply H1; try apply H2.
  - intros E A. apply H2 in A. congruence.
  - intros NA.
    destruct (String.eqb (PyStr.lower (PyStr.strip response)) "y");
      [exfalso; apply NA, H2 |]; reflexivity.
Qed.

(** How a call of [get_description] that returns has read its input:
    rounds that ended in a new prompt, then the line that was accepted. *)
Lemma get_description_returns (n : nat) :
  forall inp d,
    length inp <= n ->
    res (get_description inp) = Return d ->
    d <> ""
    /\ exists pre l,
         PyStr.strip l = d
         /\ ((String.length d <= 72
              /\ inp = pre ++ Line l :: unread (get_description inp))
             \/ (72 < String.length d
                 /\ exists c,
                      PyStr.lower (PyStr.strip c) = "y"
                      /\ inp = pre ++ Line l :: Line c
                                 :: unread (get_description inp)))%list.
Proof.
  induction n as [|n IH]; intros inp d Hn.
  - destruct inp; [|simpl in Hn; lia]. discriminate.
  - destruct inp as [|[l|] rest]; try discriminate.
    cbn [get_description length] in *.
    destruct (PyStr.truthy (PyStr.strip l)) eqn:Ht.
    + destruct (72 <? String.length (PyStr.strip l))%nat eqn:Hlen.
      * destruct rest as [|[c|] rest']; try discriminate.
        destruct (String.eqb (PyStr.lower (PyStr.strip c)) "y") eqn:Hc.
        -- cbn [res unread]. intros E. injection E as <-.
           split; [now apply truthy_true|].
           exists [], l. split; [reflexivity|]. right.
           apply Nat.ltb_lt in Hlen. split; [assumption|].
           exists c. apply String.eqb_eq in Hc. auto.
        -- cbn [after res unread]. intros E.
           destruct (IH rest' d) as (Hd & pre & l' & El & Hcase);
             [cbn [length] in Hn; lia | assumption |].
           split; [assumption|].
           exists (Line l :: Line c :: pre)%list, l'.
           split; [assumption|].
           destruct Hcase as [[Hle E']|[Hlt (c' & Hc' & E')]];
             [left | right; split; [assumption | exists c'] ];
             cbn [app]; rewrite <- E'; auto.
      * cbn [res unread]. intros E. injection E as <-.
        split; [now apply truthy_true|].
        exists [], l. split; [reflexivity|]. left.
        apply Nat.ltb_ge in Hlen. auto.
    + cbn [after res unread]. intros E.
      destruct (IH rest d) as (Hd & pre & l' & El & Hcase);
        [lia | assumption |].
      split; [assumption|].
      exists (Line l :: pre)%list, l'.
      split; [assumption|].
      destruct Hcase as [[Hle E']|[Hlt (c' & Hc' & E')]];
        [left | right; split; [assumption | exists c'] ];
        cbn [app]; rewrite <- E'; auto.
Qed.

(** C8: [get_description] returns non-empty strings only.  A trimmed entry
    of 1 to 72 characters is returned at once; a longer one is returned
    when the next answer is "y" (trimmed, lower-cased), and only then; an
    empty entry, or a long one that is not confirmed, leads to the message
    "Description is required." and a new prompt. *)
Theorem get_description_spec :
  (forall inp d, res (get_description inp) = Return d -> d <> "")
  /\ (forall l rest,
        PyStr.strip l <> "" ->
        String.length (PyStr.strip l) <= 72 ->
        get_description (Line l :: rest)
        = mkRun (Return (PyStr.strip l)) rest [Prompt AskDescription])
  /\ (forall l c rest,
        72 < String.length (PyStr.strip l) ->
        PyStr.lower (PyStr.strip c) = "y" ->
        get_description (Line l :: Line c :: rest)
        = mkRun (Return (PyStr.strip l)) rest
                [Prompt AskDescription; Print LongWarning; Prompt AskContinue])
  /\ (forall l rest,
        PyStr.strip l = "" ->
        get_description (Line l :: rest)
        = after [Prompt AskDescription; Print DescriptionRequired]
                (get_description rest))
  /\ (forall l c rest,
        72 < String.length (PyStr.strip l) ->
        PyStr.lower (PyStr.strip c) <> "y" ->
        get_description (Line l :: Line c :: rest)
        = after [Prompt AskDescription; Print LongWarning;
                 Prompt AskContinue; Print DescriptionRequired]
                (get_description rest))
  /\ (forall inp d,
        res (get_description inp) = Return d ->
        72 < String.length d ->
        exists pre l c,
          PyStr.strip l = d
          /\ PyStr.lower (PyStr.strip c) = "y"
          /\ inp = (pre ++ Line l :: Line c
                        :: unread (get_description inp))%list).
Proof.
  assert (Hlong : forall l, 72 < String.length (PyStr.strip l) ->
                            PyStr.truthy (PyStr.strip l) = true).
  { intros l H. destruct (PyStr.strip l); [simpl in H; lia | reflexivity]. }
  repeat split.
  - intros inp d H.
    now destruct (get_description_returns (length inp) inp d (le_n _) H).
  - intros l rest Hne Hle. cbn [get_description].
    apply truthy_true in Hne. rewrite Hne.
    apply Nat.ltb_ge in Hle. now rewrite Hle.
  - intros l c rest Hlt Hc. cbn [get_description].
    rewrite (Hlong l Hlt). apply Nat.ltb_lt in Hlt. rewrite Hlt, Hc.
    reflexivity.
  - intros l rest He. cbn [get_description]. now rewrite He.
  - intros l c rest Hlt Hc. cbn [get_description].
    rewrite (Hlong l Hlt). apply Nat.ltb_lt in Hlt. rewrite Hlt.
    apply String.eqb_neq in Hc. now rewrite Hc.
  - intros inp d H Hlt.
    destruct (get_description_returns (length inp) inp d (le_n _) H)
      as (_ & pre & l & El & [[Hle _]|[_ (c & Hc & E)]]); [lia|].
    exists pre, l, c. auto.
Qed.

(** The description theorem at a short entry, at a long entry that is
    confirmed, and at a blank entry followed by a short one. *)
Lemma get_description_spec_witness :
  get_description [Line "  Add login "; Line "x"]
  = mkRun (Return "Add login") [Line "x"] [Prompt AskDescription]
  /\ get_description
       [Line "Replace the hand-written argument parser with a table-driven one that reports every error";
        Line " Y "; Line "x"]
     = mkRun (Return "Replace the hand-written argument parser with a table-driven one that reports every error")
             [Line "x"]
             [Prompt AskDescription; Print LongWarning; Prompt AskContinue]
  /\ res (get_description [Line "   "; Line "Fix typo"]) = Return "Fix typo".
Proof.
  destruct get_description_spec as (_ & H2 & H3 & H4 & _).
  split; [|split].
  - apply (H2 "  Add login " [Line "x"]).
    + vm_compute. discriminate.
    + vm_compute. lia.
  - apply (H3 "Replace the hand-written argument parser with a table-driven one that reports every error"
               " Y " [Line "x"]).
    + vm_compute. lia.
    + reflexivity.
  - rewrite (H4 "   " [Line "Fix typo"]); reflexivity.
Defined.

Lemma in_range_test (types : list string) (n : Z) :
  ((0 <=? n - 1) && (n - 1 <? Z.of_nat (length types)))%Z = true
  <-> (1 <= n <= Z.of_nat (length types))%Z.
Proof.
  rewrite andb_true_iff, Z.leb_le, Z.ltb_lt. lia.
Qed.

(** How a call of the selection loop that returns has read its input:
    numbers out of range, then the number of the type it returns. *)
Lemma select_type_loop_returns (types : list string) :
  forall inp t,
    res (select_type_loop types inp) = Return t ->
    exists pre l n,
      inp = (pre ++ Line l :: unread (select_type_loop types inp))%list
      /\ Forall (out_of_range (length types)) pre
      /\ PyStr.int (PyStr.strip l) = Some n
      /\ (1 <= n <= Z.of_nat (length types))%Z
      /\ nth_error types (Z.to_nat (n - 1)) = Some t.
Proof.
  induction inp as [|[l|] rest IH]; intros t; try discriminate.
  cbn [select_type_loop].
  destruct (PyStr.int (PyStr.strip l)) as [n|] eqn:Hint; [|discriminate].
  destruct ((0 <=? n - 1) && (n - 1 <? Z.of_nat (length types)))%Z eqn:Hr.
  - cbn [res unread]. intros E. injection E as <-.
    apply in_range_test in Hr.
    exists [], l, n. repeat split; try assumption; try lia; [constructor|].
    apply nth_error_nth'. lia.
  - cbn [after res unread]. intros E.
    destruct (IH t E) as (pre & l' & n' & Ei & Hpre & Hn' & Hrange & Hnth).
    exists (Line l :: pre)%list, l', n'.
    repeat split; try assumption; try lia.
    + cbn [app]. now rewrite <- Ei.
    + constructor; [|assumption]. exists l, n.
      repeat split; try assumption.
      intros Hin. apply in_range_test in Hin. congruence.
Qed.

(** Numbers out of range are read and passed over. *)
Lemma select_type_loop_skips (types : list string)
    (pre inp : list stdin_event) :
  Forall (out_of_range (length types)) pre ->
  res (select_type_loop types (pre ++ inp)%list)
  = res (select_type_loop types inp)
  /\ unread (select_type_loop types (pre ++ inp)%list)
     = unread (select_type_loop types inp).
Proof.
  induction 1 as [|e pre (l & n & -> & Hint & Hout) _ IH]; [auto|].
  cbn [app select_type_loop]. rewrite Hint.
  destruct ((0 <=? n - 1) && (n - 1 <? Z.of_nat (length types)))%Z eqn:Hr.
  - apply in_range_test in Hr. contradiction.
  - cbn [after res unread]. exact IH.
Qed.

(** The selection loop calls no subprocess. *)
Lemma select_type_loop_no_run (types : list string) (argv : list string) :
  forall inp, ~ In (Run argv) (emitted (select_type_loop types inp)).
Proof.
  induction inp as [|[l|] rest IH]; cbn [select_type_loop].
  - cbn. intuition discriminate.
  - destruct (PyStr.int (PyStr.strip l)) as [n|];
      [|cbn; intuition discriminate].
    destruct ((0 <=? n - 1) && (n - 1 <? Z.of_nat (length types)))%Z;
      [cbn; intuition discriminate|].
    cbn [after emitted app In]. intros [H|[H|H]]; try discriminate.
    now apply IH.
  - cbn. intuition discriminate.
Qed.

(** C5, as stated, fails: an entry that is not a number ends the run with
    exit code 1, although a valid number follows it. *)
Lemma select_type_not_a_number :
  select_type_loop keys [Line "feat"; Line "1"]
  = mkRun (SysExit 1) [Line "1"] [Prompt AskNumber; Print Cancelled]
  /\ res (select_type [Line "feat"; Line "1"]) = SysExit 1
  /\ res (select_type [Line "1"]) = Return "feat".
Proof. repeat split; vm_compute; reflexivity. Qed.

(** C5, amended: in [select_type] a number out of range leads to the
    message "Invalid selection. Try again." and a new prompt; an entry that
    is not a number, like Ctrl-C, ends the loop and the whole run with exit
    code 1 and without a subprocess call; and when [select_type] returns, it returns the commit
    type at the 1-indexed position that was entered last, after entries
    that were all numbers out of range. *)
Theorem select_type_spec :
  (exists menu,
     (forall e, In e menu -> exists m, e = Print m)
     /\ forall inp,
          select_type inp = after menu (select_type_loop keys inp))
  /\ (forall l n rest,
        PyStr.int (PyStr.strip l) = Some n ->
        ~ (1 <= n <= 11)%Z ->
        select_type_loop keys (Line l :: rest)
        = after [Prompt AskNumber; Print InvalidSelection]
                (select_type_loop keys rest))
  /\ (forall l rest,
        PyStr.int (PyStr.strip l) = None ->
        select_type_loop keys (Line l :: rest)
        = mkRun (SysExit 1) rest [Prompt AskNumber; Print Cancelled])
  /\ (forall rest,
        select_type_loop keys (CtrlC :: rest)
        = mkRun (SysExit 1) rest [Prompt AskNumber; Print Cancelled])
  /\ (forall git pre e rest,
        Forall (out_of_range 11) pre ->
        e = CtrlC
        \/ (exists l, e = Line l /\ PyStr.int (PyStr.strip l) = None) ->
        res (main git interactive_args (pre ++ e :: rest)%list) = SysExit 1
        /\ unread (main git interactive_args (pre ++ e :: rest)%list) = rest
        /\ forall argv,
             ~ In (Run argv)
                  (emitted (main git interactive_args (pre ++ e :: rest)%list)))
  /\ (forall inp t,
        res (select_type inp) = Return t ->
        exists pre l n,
          inp = (pre ++ Line l :: unread (select_type inp))%list
          /\ Forall (out_of_range 11) pre
          /\ PyStr.int (PyStr.strip l) = Some n
          /\ (1 <= n <= 11)%Z
          /\ nth_error keys (Z.to_nat (n - 1)) = Some t).
Proof.
  pose proof select_type_menu as Hmenu.
  split; [|split; [|split; [|split; [|split]]]].
  - exists menu. split; [exact menu_prints | exact Hmenu].
  - intros l n rest Hint Hn. cbn [select_type_loop]. rewrite Hint.
    destruct ((0 <=? n - 1) && (n - 1 <? Z.of_nat (length keys)))%Z eqn:Hr;
      [|reflexivity].
    apply in_range_test in Hr. change (Z.of_nat (length keys)) with 11%Z in Hr.
    contradiction.
  - intros l rest Hint. cbn [select_type_loop]. now rewrite Hint.
  - reflexivity.
  - intros git pre e rest Hpre He.
    assert (Hloop : select_type_loop keys (e :: rest)
                    = mkRun (SysExit 1) rest [Prompt AskNumber; Print Cancelled]).
    { destruct He as [->|(l & -> & Hint)]; [reflexivity|].
      cbn [select_type_loop]. now rewrite Hint. }
    destruct (select_type_loop_skips keys pre (e :: rest) Hpre) as [Hres Hun].
    rewrite Hloop in Hres, Hun. cbn [res unread] in Hres, Hun.
    rewrite (main_exits_with_select_type git (pre ++ e :: rest)%list 1)
      by (now rewrite Hmenu).
    rewrite Hmenu. cbn [res unread emitted after].
    split; [reflexivity | split; [exact Hun|]].
    intros argv Hin. apply in_app_or in Hin as [Hin|Hin].
    + cbn in Hin. intuition discriminate.
    + apply in_app_or in Hin as [Hin|Hin].
      * apply menu_prints in Hin as [m Hm]. discriminate.
      * revert Hin. apply select_type_loop_no_run.
  - intros inp t. rewrite Hmenu. cbn [after res unread]. intros E.
    destruct (select_type_loop_returns keys inp t E)
      as (pre & l & n & Ei & Hpre & Hint & Hr & Hnth).
    exists pre, l, n. auto.
Qed.

(** The selection theorem at the entry 12, at the empty entry, and at a
    run that is interrupted after the entry 0. *)
Lemma select_type_spec_witness :
  select_type_loop keys [Line " 12 "; Line "2"]
  = after [Prompt AskNumber; Print InvalidSelection]
          (select_type_loop keys [Line "2"])
  /\ select_type_loop keys [Line ""; Line "2"]
     = mkRun (SysExit 1) [Line "2"] [Prompt AskNumber; Print Cancelled]
  /\ res (main (fun _ => Completed) interactive_args
               [Line "0"; CtrlC; Line "1"]) = SysExit 1
  /\ res (select_type_loop keys [Line " 12 "; Line "2"]) = Return "fix".
Proof.
  destruct select_type_spec as (_ & Hout & Hnan & _ & Habort & _).
  split; [|split; [|split]].
  - apply (Hout " 12 " 12%Z [Line "2"]); [reflexivity | lia].
  - apply (Hnan "" [Line "2"]). reflexivity.
  - apply (Habort (fun _ => Completed) [Line "0"] CtrlC [Line "1"]).
    + constructor; [|constructor].
      exists "0", 0%Z. split; [reflexivity|]. split; [reflexivity | lia].
    + left. reflexivity.
  - reflexivity.
Defined.

End Prompts.

(* ------------------------------------------------------------------ *)
(** ** Quick commits and the draft that reaches [build_message] *)

Section Runs.

Variable git : list string -> proc_outcome.

(** [execute_commit] by the outcome of its one subprocess call. *)
Lemma execute_commit_run (message : string) (inp : list stdin_event) :
  unread (execute_commit git message inp) = inp
  /\ runs (emitted (execute_commit git message inp)) = [commit_argv message]
  /\ execute_commit git message inp
     = match git (commit_argv message) with
       | Completed =>
           mkRun (Return true) inp
                 [Run (commit_argv message); Print CommitSuccessful]
       | CalledProcessError =>
           mkRun (Return false) inp
                 [Run (commit_argv message); Print CommitFailed]
       | FileNotFoundError =>
           mkRun (Return false) inp
                 [Run (commit_argv message); Print GitNotFound]
       | OtherException =>
           mkRun (Raise SubprocessException) inp [Run (commit_argv message)]
       end.
Proof.
  unfold execute_commit, commit_argv.
  destruct (git ["git"; "commit"; "-m"; message]); repeat split.
Qed.

(** C6: in a run that reaches the quick-commit branch ([--status] and
    [--types] are off and [-q TYPE DESC] is given), a TYPE that is not a key
    of [COMMIT_TYPES] ends the run with exit code 1 before any subprocess is
    called; a TYPE that is a key leads, without a prompt and without reading
    input, to one call of [git commit -m message] on the assembled message:
    to exit code 0 when it completes, to exit code 1 when it fails or [git]
    is missing, and out of [main] with the exception when it raises
    another one. *)
Theorem quick_commit_validates_type (args : Args) (commit_type descr : string)
    (inp : list stdin_event) :
  args_status args = false ->
  args_types args = false ->
  args_quick args = Some (commit_type, descr) ->
  (~ In commit_type keys ->
   res (main git args inp) = SysExit 1
   /\ unread (main git args inp) = inp
   /\ forall e, In e (emitted (main git args inp)) -> exists m, e = Print m)
  /\ (In commit_type keys ->
      let message :=
        build_message (quick_draft commit_type descr (args_scope args)) in
      let argv := ["git"; "commit"; "-m"; message] in
      match git argv with
      | Completed =>
          main git args inp
          = mkRun (SysExit 0) inp [Run argv; Print CommitSuccessful]
      | CalledProcessError =>
          main git args inp
          = mkRun (SysExit 1) inp [Run argv; Print CommitFailed]
      | FileNotFoundError =>
          main git args inp
          = mkRun (SysExit 1) inp [Run argv; Print GitNotFound]
      | OtherException =>
          main git args inp = mkRun (Raise SubprocessException) inp [Run argv]
      end).
Proof.
  intros Hs Ht Hq. unfold main. rewrite Hs, Ht, Hq. split.
  - intros Hnot.
    destruct (is_commit_type commit_type) eqn:E;
      [apply is_commit_type_In in E; contradiction|].
    cbn. split; [reflexivity | split; [reflexivity|]].
    intros e [<-|[<-|[]]]; eauto.
  - intros Hin. cbv zeta. apply is_commit_type_In in Hin. rewrite Hin.
    cbn [negb]. unfold quick_commit, bind, execute_commit.
    destruct (git _); reflexivity.
Qed.

(** What [interactive_draft] hands to [build_message]: a type of the table
    and a description that is not empty. *)
Lemma interactive_draft_invariant (inp : list stdin_event)
    (self : CommitHelper) :
  res (interactive_draft inp) = Return self ->
  In (type self) keys /\ description self <> "".
Proof.
  unfold interactive_draft. intros H.
  apply bind_returns in H as (t & Ht & H).
  apply bind_returns in H as (s & Hs & H).
  apply bind_returns in H as (d & Hd & H).
  apply bind_returns in H as (b & Hb & H).
  apply bind_returns in H as (br & Hbr & H).
  injection H as <-. cbn [type description]. split.
  - rewrite select_type_menu in Ht. cbn [after res] in Ht.
    destruct (select_type_loop_returns keys inp t Ht)
      as (_ & _ & n & _ & _ & _ & _ & Hnth).
    eapply nth_error_In, Hnth.
  - eapply (get_description_returns _ _ d (le_n _)), Hd.
Qed.


(** C7 at a failing input: [-q feat ""] passes the type check of [main],
    and [build_message] is called on a draft whose description is empty;
    the message "feat: " goes to [git commit], whatever comes of the
    call. *)
Theorem quick_commit_empty_description (inp : list stdin_event) :
  In "feat" keys
  /\ description (quick_draft "feat" "" None) = ""
  /\ build_message (quick_draft "feat" "" None) = "feat: "
  /\ match git ["git"; "commit"; "-m"; "feat: "] with
     | Completed =>
         main git (mkArgs (Some ("feat", "")) None false false) inp
         = mkRun (SysExit 0) inp
                 [Run ["git"; "commit"; "-m"; "feat: "];
                  Print CommitSuccessful]
     | CalledProcessError =>
         main git (mkArgs (Some ("feat", "")) None false false) inp
         = mkRun (SysExit 1) inp
                 [Run ["git"; "commit"; "-m"; "feat: "]; Print CommitFailed]
     | FileNotFoundError =>
         main git (mkArgs (Some ("feat", "")) None false false) inp
         = mkRun (SysExit 1) inp
                 [Run ["git"; "commit"; "-m"; "feat: "]; Print GitNotFound]
     | OtherException =>
         main git (mkArgs (Some ("feat", "")) None false false) inp
         = mkRun (Raise SubprocessException) inp
                 [Run ["git"; "commit"; "-m"; "feat: "]]
     end.
Proof.
  split; [left; reflexivity|]. split; [reflexivity|]. split; [reflexivity|].
  unfold main. cbn [args_status args_types args_quick args_scope].
  change (is_commit_type "feat") with true. cbn [negb].
  unfold quick_commit, bind, execute_commit.
  change (build_message (quick_draft "feat" "" None)) with "feat: ".
  destruct (git _); reflexivity.
Qed.

(** The characters that [build_message] writes between the fields of a
    header without "!": a character that is none of them occurs in the
    header exactly when it occurs in a field. *)
Lemma has_char_plain_header (c : ascii) (t s d : string) :
  PyStr.has_char c "(): " = false ->
  PyStr.has_char c
    (t ++ (if PyStr.truthy s then "(" ++ s ++ ")" else "") ++ ": " ++ d)
  = PyStr.has_char c t || PyStr.has_char c s || PyStr.has_char c d.
Proof.
  cbn [PyStr.has_char]. intros H.
  apply orb_false_elim in H as [H1 H].
  apply orb_false_elim in H as [H2 H].
  apply orb_false_elim in H as [H3 H].
  apply orb_false_elim in H as [H4 _].
  destruct (PyStr.truthy s) eqn:Hs.
  - repeat (rewrite has_char_append; cbn [PyStr.has_char append]).
    rewrite H1, H2, H3, H4. cbn [orb].
    now rewrite !orb_false_r, orb_assoc.
  - apply truthy_false in Hs. subst s.
    repeat (rewrite has_char_append; cbn [PyStr.has_char append]).
    rewrite H3, H4. cbn [orb]. now rewrite !orb_false_r.
Qed.

(** C10, as stated, fails: a quick commit whose description holds a blank
    line and the text of the breaking-change paragraph gives a message of
    three lines that ends with that paragraph and holds the phrase
    "BREAKING CHANGE", and that message is what [git commit] gets; a
    description with "!" gives a message with "!". *)
Lemma quick_commit_copies_description :
  build_message
    (quick_draft "feat" ("Drop the v1 API" ++ LF ++ LF ++ BREAKING_PARAGRAPH)
                 None)
  = "feat: Drop the v1 API" ++ LF ++ LF ++ BREAKING_PARAGRAPH
  /\ PyStr.first_line
       (build_message
          (quick_draft "feat"
             ("Drop the v1 API" ++ LF ++ LF ++ BREAKING_PARAGRAPH) None))
     = "feat: Drop the v1 API"
  /\ PyStr.endswith (LF ++ LF ++ BREAKING_PARAGRAPH)
       (build_message
          (quick_draft "feat"
             ("Drop the v1 API" ++ LF ++ LF ++ BREAKING_PARAGRAPH) None))
     = true
  /\ PyStr.contains "BREAKING CHANGE"
       (build_message
          (quick_draft "feat"
             ("Drop the v1 API" ++ LF ++ LF ++ BREAKING_PARAGRAPH) None))
     = true
  /\ runs (emitted
             (main (fun _ => Completed)
                   (mkArgs (Some ("feat",
                                  "Drop the v1 API" ++ LF ++ LF
                                    ++ BREAKING_PARAGRAPH))
                           None false false) []))
     = [["git"; "commit"; "-m";
         "feat: Drop the v1 API" ++ LF ++ LF ++ BREAKING_PARAGRAPH]]
  /\ PyStr.has_char "!" (build_message (quick_draft "fix" "Ship it!" None))
     = true.
Proof. repeat split; vm_compute; reflexivity. Qed.

(** C10, amended: the draft of a quick commit has the breaking flag off and
    an empty body, so [build_message] adds nothing to the header: the
    message is [type(scope): description] or [type: description] with TYPE,
    SCOPE and DESC copied as they are, no "!" is put before the colon, no
    body paragraph and no breaking-change paragraph is appended, and that
    message is what [git commit] gets.  The message holds "!", a line feed
    (a further line or paragraph) or the phrase "BREAKING CHANGE" exactly
    when TYPE, SCOPE or DESC holds it. *)
Theorem quick_commit_header_only (commit_type descr : string)
    (scope : option string) (inp : list stdin_event) :
  breaking (quick_draft commit_type descr scope) = false
  /\ body (quick_draft commit_type descr scope) = ""
  /\ parts (quick_draft commit_type descr scope)
     = [header (quick_draft commit_type descr scope)]
  /\ header (quick_draft commit_type descr scope)
     = commit_type
         ++ (if PyStr.truthy (or_empty scope)
             then "(" ++ or_empty scope ++ ")" else "")
         ++ ": " ++ descr
  /\ build_message (quick_draft commit_type descr scope)
     = header (quick_draft commit_type descr scope)
  /\ runs (emitted (quick_commit git commit_type descr scope inp))
     = [["git"; "commit"; "-m"; header (quick_draft commit_type descr scope)]]
  /\ PyStr.has_char "!" (build_message (quick_draft commit_type descr scope))
     = PyStr.has_char "!" commit_type
       || PyStr.has_char "!" (or_empty scope)
       || PyStr.has_char "!" descr
  /\ PyStr.has_char lf (build_message (quick_draft commit_type descr scope))
     = PyStr.has_char lf commit_type
       || PyStr.has_char lf (or_empty scope)
       || PyStr.has_char lf descr
  /\ PyStr.contains "BREAKING CHANGE"
       (build_message (quick_draft commit_type descr scope))
     = PyStr.contains "BREAKING CHANGE" commit_type
       || PyStr.contains "BREAKING CHANGE" (or_empty scope)
       || PyStr.contains "BREAKING CHANGE" descr.
Proof.
  assert (Hh : header (quick_draft commit_type descr scope)
               = commit_type
                   ++ (if PyStr.truthy (or_empty scope)
                       then "(" ++ or_empty scope ++ ")" else "")
                   ++ ": " ++ descr).
  { unfold header, quick_draft. cbn.
    destruct (PyStr.truthy (or_empty scope)); cbn; [|reflexivity].
    rewrite append_assoc. cbn [append]. now rewrite ?append_assoc. }
  assert (Hm : build_message (quick_draft commit_type descr scope)
               = header (quick_draft commit_type descr scope))
    by reflexivity.
  split; [reflexivity|]. split; [reflexivity|]. split; [reflexivity|].
  split; [exact Hh|]. split; [exact Hm|]. split; [|split; [|split]].
  - unfold quick_commit.
    destruct (execute_commit_run
                (build_message (quick_draft commit_type descr scope)) inp)
      as (_ & Hr & _).
    rewrite Hr, Hm. reflexivity.
  - rewrite Hm, Hh. now apply has_char_plain_header.
  - rewrite Hm, Hh. now apply has_char_plain_header.
  - rewrite contains_breaking_change.
    change (PyStr.contains "BREAKING CHANGE"
              (body (quick_draft commit_type descr scope))) with false.
    now rewrite orb_false_r.
Qed.

End Runs.

(** The quick-commit theorem at an unknown type, and at a known type with
    a failing [git]. *)
Lemma quick_commit_validates_type_witness :
  res (main (fun _ => Completed)
            (mkArgs (Some ("feature", "Add login")) None false false) [])
  = SysExit 1
  /\ exists m,
       main (fun _ => CalledProcessError)
            (mkArgs (Some ("fix", "Fix crash")) (Some "auth") false false)
            [Line "y"]
       = mkRun (SysExit 1) [Line "y"]
               [Run ["git"; "commit"; "-m"; "fix(auth): Fix crash"]; Print m].
Proof.
  split.
  - destruct (quick_commit_validates_type (fun _ => Completed)
                (mkArgs (Some ("feature", "Add login")) None false false)
                "feature" "Add login" [] eq_refl eq_refl eq_refl) as [H _].
    apply H. rewrite keys_eq. cbn. intuition discriminate.
  - destruct (quick_commit_validates_type (fun _ => CalledProcessError)
                (mkArgs (Some ("fix", "Fix crash")) (Some "auth") false false)
                "fix" "Fix crash" [Line "y"] eq_refl eq_refl eq_refl) as [_ H].
    assert (Hin : In "fix" keys) by (rewrite keys_eq; cbn; auto).
    exists CommitFailed. exact (H Hin).
Defined.

(* ------------------------------------------------------------------ *)
(** ** Trimmed answers: [get_scope] and [get_description] *)

Section Trimmed.

Lemma rstrip_idempotent (s : string) :
  PyStr.rstrip (PyStr.rstrip s) = PyStr.rstrip s.
Proof.
  induction s as [|c s IH]; [reflexivity|].
  cbn [PyStr.rstrip]. destruct (PyStr.rstrip s) as [|x r] eqn:Hr.
  - destruct (PyStr.isspace c) eqn:Hc; [reflexivity|].
    cbn [PyStr.rstrip]. now rewrite Hc.
  - cbn [PyStr.rstrip] in *. rewrite IH. reflexivity.
Qed.

(** [lstrip] leaves a string that does not start with white space. *)
Lemma lstrip_head (s : string) :
  match PyStr.lstrip s with
  | EmptyString => True
  | String c _ => PyStr.isspace c = false
  end.
Proof.
  induction s as [|c s IH]; [exact I|].
  cbn [PyStr.lstrip]. destruct (PyStr.isspace c) eqn:Hc; assumption.
Qed.

Lemma rstrip_head (c : ascii) (t : string) :
  PyStr.isspace c = false ->
  exists r, PyStr.rstrip (String c t) = String c r.
Proof.
  intros Hc. cbn [PyStr.rstrip]. destruct (PyStr.rstrip t).
  - rewrite Hc. eauto.
  - eauto.
Qed.

Lemma lstrip_strip (s : string) :
  PyStr.lstrip (PyStr.strip s) = PyStr.strip s.
Proof.
  unfold PyStr.strip. pose proof (lstrip_head s) as H.
  destruct (PyStr.lstrip s) as [|c t]; [reflexivity|].
  destruct (rstrip_head c t H) as [r ->].
  cbn [PyStr.lstrip]. now rewrite H.
Qed.

Lemma strip_idempotent (s : string) :
  PyStr.strip (PyStr.strip s) = PyStr.strip s.
Proof.
  unfold PyStr.strip at 1. rewrite lstrip_strip.
  unfold PyStr.strip. apply rstrip_idempotent.
Qed.

Lemma strip_all_space (s : string) :
  PyStr.strip s = "" <-> all_space s = true.
Proof.
  split.
  - intros E. destruct (strip_split s) as (a & b & Es & Ha & Hb).
    rewrite E in Es. subst s. cbn [append].
    clear E. induction a as [|c a IH]; [exact Hb|].
    cbn [append all_space] in *.
    apply andb_true_iff in Ha as [Hc Ha]. rewrite Hc. auto.
  - intros H. unfold PyStr.strip.
    rewrite <- (append_empty_r s), lstrip_all_space by assumption.
    reflexivity.
Qed.

(** X1: on a typed line [get_scope] returns the line without the white
    space around it, after one prompt and without touching the rest of the
    input.  Trimming the result again changes nothing, and the result is
    empty ("no scope") exactly for a line of white space only. *)
Theorem get_scope_trimmed (l : string) (rest : list stdin_event) :
  get_scope (Line l :: rest)
  = mkRun (Return (PyStr.strip l)) rest [Prompt AskScope]
  /\ PyStr.strip (PyStr.strip l) = PyStr.strip l
  /\ (PyStr.strip l = "" <-> all_space l = true).
Proof.
  split; [reflexivity|]. split; [apply strip_idempotent | apply strip_all_space].
Qed.

(** X2: whatever [get_description] returns is trimmed: it neither starts
    nor ends with white space, so trimming it again changes nothing. *)
Theorem get_description_trimmed (inp : list stdin_event) (d : string) :
  res (get_description inp) = Return d ->
  PyStr.strip d = d.
Proof.
  intros H.
  destruct (get_description_returns (length inp) inp d (le_n _) H)
    as (_ & _ & l & <- & _).
  apply strip_idempotent.
Qed.

End Trimmed.

(** The trimmed-description theorem at an entry with spaces around it. *)
Lemma get_description_trimmed_witness :
  PyStr.strip "Add login" = "Add login".
Proof.
  apply (get_description_trimmed [Line "  Add login  "] "Add login").
  reflexivity.
Defined.

(* ------------------------------------------------------------------ *)
(** ** The body: [get_body] *)

Section Body.

Lemma join_not_empty (lines : list string) :
  lines <> [] ->
  Forall (fun l => l <> "") lines ->
  PyStr.join LF lines <> "".
Proof.
  destruct lines as [|x lines]; [congruence|]. intros _ H.
  inversion H as [|? ? Hx _]; subst.
  destruct x as [|c x]; [congruence|].
  destruct lines; cbn; discriminate.
Qed.

(** The loop on lines that are not empty, closed by an empty one. *)
Lemma get_body_loop_reads (lines : list string) :
  forall acc rest,
    Forall (fun l => l <> "") lines ->
    get_body_loop acc (map Line lines ++ Line "" :: rest)%list
    = mkRun (Return (PyStr.join LF (acc ++ lines)%list)) rest
            (repeat (Prompt AskBodyLine) (S (length lines))).
Proof.
  induction lines as [|l lines IH]; intros acc rest H.
  - cbn. now rewrite app_nil_r.
  - inversion H as [|? ? Hl Hls]; subst.
    cbn [map app get_body_loop].
    apply truthy_true in Hl. rewrite Hl. cbn [negb].
    rewrite IH by assumption. unfold after. cbn [res unread emitted].
    rewrite <- app_assoc. reflexivity.
Qed.

(** A loop that returns has read lines that are not empty, then an empty
    one. *)
Lemma get_body_loop_returns :
  forall inp acc b,
    res (get_body_loop acc inp) = Return b ->
    exists lines,
      inp = (map Line lines ++ Line "" :: unread (get_body_loop acc inp))%list
      /\ Forall (fun l => l <> "") lines
      /\ b = PyStr.join LF (acc ++ lines)%list.
Proof.
  induction inp as [|[l|] rest IH]; intros acc b; try discriminate.
  cbn [get_body_loop]. destruct (PyStr.truthy l) eqn:Hl; cbn [negb].
  - cbn [after res unread]. intros E.
    destruct (IH _ _ E) as (lines & Ei & Hne & Eb).
    exists (l :: lines). cbn [map app]. rewrite <- Ei.
    split; [reflexivity|]. split.
    + constructor; [now apply truthy_true | assumption].
    + rewrite Eb, <- app_assoc. reflexivity.
  - apply truthy_false in Hl. subst l. cbn [res unread].
    intros E. injection E as <-.
    exists []. cbn [map app]. rewrite app_nil_r. auto.
Qed.

(** X3: [get_body] reads lines up to the first empty one and returns the
    lines before it joined by line feeds, leaving what follows the empty
    line unread.  A line of white space is not empty and is kept as it is.
    Conversely, whenever [get_body] returns, its input had this shape; and
    the body is empty ("no body") exactly when no line came before the
    empty one. *)
Theorem get_body_spec :
  (forall lines rest,
     Forall (fun l => l <> "") lines ->
     res (get_body (map Line lines ++ Line "" :: rest)%list)
     = Return (PyStr.join LF lines)
     /\ unread (get_body (map Line lines ++ Line "" :: rest)%list) = rest)
  /\ (forall inp b,
        res (get_body inp) = Return b ->
        exists lines,
          inp = (map Line lines ++ Line "" :: unread (get_body inp))%list
          /\ Forall (fun l => l <> "") lines
          /\ b = PyStr.join LF lines
          /\ (b = "" <-> lines = [])).
Proof.
  assert (Hbody : forall inp,
             get_body inp
             = after [Print BodyTitle; Print BodyHint] (get_body_loop [] inp))
    by reflexivity.
  split.
  - intros lines rest H. rewrite Hbody, get_body_loop_reads by assumption.
    split; reflexivity.
  - intros inp b. rewrite Hbody. cbn [after res unread]. intros E.
    destruct (get_body_loop_returns _ _ _ E) as (lines & Ei & Hne & Eb).
    cbn [app] in Eb. exists lines. repeat split; try assumption.
    + intros E0. destruct lines as [|x lines]; [reflexivity|].
      exfalso. apply (join_not_empty (x :: lines)); [discriminate | assumption|].
      congruence.
    + intros ->. exact Eb.
Qed.

End Body.

(** The body theorem at two lines, the second of white space, closed by an
    empty line. *)
Lemma get_body_spec_witness :
  res (get_body [Line "first"; Line "  "; Line ""; Line "n"])
  = Return ("first" ++ LF ++ "  ")
  /\ unread (get_body [Line "first"; Line "  "; Line ""; Line "n"])
     = [Line "n"].
Proof.
  destruct get_body_spec as [H _].
  apply (H ["first"; "  "] [Line "n"]).
  repeat constructor; discriminate.
Defined.

(* ------------------------------------------------------------------ *)
(** ** The menu of [select_type] and the numbers it accepts *)

Section Menu.

Lemma in_enumerate (types : list string) :
  forall s i t,
    In (i, t) (combine (seq s (length types)) types) ->
    s <= i < s + length types /\ nth_error types (i - s) = Some t.
Proof.
  induction types as [|x types IH]; intros s i t; [intros []|].
  cbn [length seq combine In]. intros [E|H].
  - injection E as <- <-. rewrite Nat.sub_diag. split; [lia | reflexivity].
  - destruct (IH _ _ _ H) as [Hr Hn]. split; [lia|].
    replace (i - s) with (S (i - S s)) by lia. exact Hn.
Qed.

Lemma enumerate_in (types : list string) :
  forall s k t,
    nth_error types k = Some t ->
    In (s + k, t) (combine (seq s (length types)) types).
Proof.
  induction types as [|x types IH]; intros s k t; [now destruct k|].
  cbn [length seq combine In]. destruct k as [|k]; cbn [nth_error].
  - intros E. injection E as <-. left. f_equal. lia.
  - intros H. right. replace (s + S k) with (S s + k) by lia. now apply IH.
Qed.

Lemma describe_in (t : string) :
  In t keys -> In (t, describe t) COMMIT_TYPES.
Proof.
  rewrite keys_eq. cbn [In].
  intros H. repeat (destruct H as [<-|H]; [cbn; tauto|]). destruct H.
Qed.

(** X4: the number printed beside a commit type in the menu is the number
    that selects it: after any entries out of range, an entry that [int]
    reads as that number makes [select_type] return that type, whose
    description in the menu is the one of [COMMIT_TYPES].  Every commit
    type has a line in the menu. *)
Theorem menu_numbers_select :
  (forall i t d pre l rest,
     In (Print (TypeLine i t d)) menu ->
     Forall (out_of_range 11) pre ->
     PyStr.int (PyStr.strip l) = Some (Z.of_nat i) ->
     res (select_type (pre ++ Line l :: rest)%list) = Return t
     /\ unread (select_type (pre ++ Line l :: rest)%list) = rest
     /\ In (t, d) COMMIT_TYPES)
  /\ (forall t, In t keys -> exists i d, In (Print (TypeLine i t d)) menu).
Proof.
  split.
  - intros i t d pre l rest Hin Hpre Hint.
    destruct Hin as [Hin|Hin]; [discriminate|].
    apply in_map_iff in Hin as ([i' t'] & E & Hit).
    cbn [fst snd] in E. injection E as -> -> <-.
    apply in_enumerate in Hit as [Hr Hnth].
    change (length keys) with 11 in Hr.
    rewrite select_type_menu. cbn [after res unread].
    destruct (select_type_loop_skips keys pre (Line l :: rest) Hpre)
      as [-> ->].
    cbn [select_type_loop]. rewrite Hint.
    replace ((0 <=? Z.of_nat i - 1) && (Z.of_nat i - 1 <? Z.of_nat (length keys)))%Z
      with true
      by (symmetry; apply in_range_test; change (length keys) with 11; lia).
    cbn [res unread].
    replace (Z.to_nat (Z.of_nat i - 1)) with (i - 1) by lia.
    rewrite (nth_error_nth _ _ "" Hnth).
    split; [reflexivity | split; [reflexivity|]].
    apply describe_in. eapply nth_error_In, Hnth.
  - intros t Ht. apply In_nth_error in Ht as [k Hk].
    exists (1 + k), (describe t). right.
    apply in_map_iff. exists (1 + k, t). split; [reflexivity|].
    now apply enumerate_in.
Qed.

End Menu.

(** The menu theorem at the seventh line, after the entries 0 and 12. *)
Lemma menu_numbers_select_witness :
  res (select_type [Line "0"; Line "12"; Line " 7"; Line "x"]) = Return "test".
Proof.
  destruct menu_numbers_select as [H _].
  apply (H 7 "test" "Adding missing tests or correcting existing tests"
           [Line "0"; Line "12"] " 7" [Line "x"]).
  - cbn. tauto.
  - repeat constructor.
    + exists "0", 0%Z. split; [reflexivity|]. split; [reflexivity | lia].
    + exists "12", 12%Z. split; [reflexivity|]. split; [reflexivity | lia].
  - reflexivity.
Defined.

(* ------------------------------------------------------------------ *)
(** ** Prompts call no subprocess *)

Section Quiet.

Lemma runs_app (a b : list event) : runs (a ++ b) = (runs a ++ runs b)%list.
Proof.
  induction a as [|[p|m|argv] a IH]; cbn [app runs]; [reflexivity| | |];
    now rewrite IH.
Qed.

Lemma bind_raise {A B : Type} (m : M A) (f : A -> M B)
    (inp : list stdin_event) (e : exn) :
  res (m inp) = Raise e ->
  bind m f inp = mkRun (Raise e) (unread (m inp)) (emitted (m inp)).
Proof.
  intros H. unfold bind. now rewrite H.
Qed.

Lemma bind_input_line {B : Type} (p : prompt) (f : string -> M B)
    (l : string) (rest : list stdin_event) :
  bind (input p) f (Line l :: rest) = after [Prompt p] (f l rest).
Proof. reflexivity. Qed.

Lemma quiet_after {A : Type} (evs : list event) (r : run A) :
  runs evs = [] -> quiet r -> quiet (after evs r).
Proof.
  intros He (Hr & Hc & Hx). split; [|split; [exact Hc | exact Hx]].
  cbn [after emitted]. now rewrite runs_app, He, Hr.
Qed.

Lemma quiet_bind {A B : Type} (m : M A) (f : A -> M B)
    (inp : list stdin_event) :
  quiet (m inp) ->
  (forall a, res (m inp) = Return a -> quiet (f a (unread (m inp)))) ->
  quiet (bind m f inp).
Proof.
  intros (Hr & Hc & Hx) Hf. unfold bind.
  destruct (res (m inp)) as [a|c|e] eqn:E.
  - apply quiet_after; [assumption | now apply Hf].
  - split; [assumption|]. cbn [res]. split; [|discriminate].
    intros c' E'. injection E' as <-. now apply Hc.
  - split; [assumption|]. cbn [res]. split; [discriminate|].
    intros E'. apply Hx. injection E' as ->. reflexivity.
Qed.

(** A run that ends at once, without a subprocess call. *)
Ltac quiet_now :=
  split;
  [ reflexivity
  | split;
    [ intros ? E; first [discriminate E | injection E as <-; reflexivity]
    | discriminate ] ].

Lemma quiet_input (p : prompt) (inp : list stdin_event) : quiet (input p inp).
Proof.
  destruct inp as [|[l|] rest]; quiet_now.
Qed.

Lemma quiet_ret {A : Type} (a : A) (inp : list stdin_event) : quiet (ret a inp).
Proof. quiet_now. Qed.

Lemma quiet_select_type (inp : list stdin_event) : quiet (select_type inp).
Proof.
  rewrite select_type_menu. apply quiet_after; [reflexivity|].
  induction inp as [|[l|] rest IH]; cbn [select_type_loop].
  - quiet_now.
  - destruct (PyStr.int (PyStr.strip l)) as [n|].
    + destruct ((0 <=? n - 1) && (n - 1 <? Z.of_nat (length keys)))%Z.
      * quiet_now.
      * now apply quiet_after.
    + quiet_now.
  - quiet_now.
Qed.

Lemma quiet_get_description (inp : list stdin_event) :
  quiet (get_description inp).
Proof.
  assert (H : forall n inp, length inp <= n -> quiet (get_description inp)).
  { clear inp. induction n as [|n IH]; intros inp Hn.
    - destruct inp; [|cbn in Hn; lia]. quiet_now.
    - destruct inp as [|[l|] rest];
        try (quiet_now).
      cbn [get_description length] in *.
      destruct (PyStr.truthy (PyStr.strip l)).
      + destruct (72 <? String.length (PyStr.strip l))%nat.
        * destruct rest as [|[c|] rest'];
            try (quiet_now).
          destruct (String.eqb (PyStr.lower (PyStr.strip c)) "y").
          -- quiet_now.
          -- apply quiet_after; [reflexivity|]. apply IH.
             cbn [length] in Hn. lia.
        * quiet_now.
      + apply quiet_after; [reflexivity|]. apply IH. lia. }
  now apply (H (length inp)).
Qed.

Lemma quiet_get_body (inp : list stdin_event) : quiet (get_body inp).
Proof.
  change (get_body inp)
    with (after [Print BodyTitle; Print BodyHint] (get_body_loop [] inp)).
  apply quiet_after; [reflexivity|].
  generalize (@nil string) as acc.
  induction inp as [|[l|] rest IH]; intros acc; cbn [get_body_loop];
    try (quiet_now).
  destruct (PyStr.truthy l); cbn [negb].
  - apply quiet_after; [reflexivity | apply IH].
  - quiet_now.
Qed.

Lemma quiet_interactive_draft (inp : list stdin_event) :
  quiet (interactive_draft inp).
Proof.
  unfold interactive_draft.
  apply quiet_bind; [apply quiet_select_type|]. intros t _.
  apply quiet_bind;
    [unfold get_scope; apply quiet_bind;
       [apply quiet_input | intros; apply quiet_ret]|].
  intros s _.
  apply quiet_bind; [apply quiet_get_description|]. intros d _.
  apply quiet_bind; [apply quiet_get_body|]. intros b _.
  apply quiet_bind;
    [unfold check_breaking; apply quiet_bind;
       [apply quiet_input | intros; apply quiet_ret]|].
  intros br _. apply quiet_ret.
Qed.

End Quiet.

(* ------------------------------------------------------------------ *)
(** ** Interactive runs: preview, confirmation and commit *)

Section Interactive.

Variable git : list string -> proc_outcome.

(** [interactive_commit] once the draft is complete: the banner, the
    prompts of the draft and the preview, then the confirmation. *)
Lemma interactive_commit_confirm (inp : list stdin_event)
    (self : CommitHelper) :
  res (interactive_draft inp) = Return self ->
  interactive_commit git inp
  = after ([Print Rule; Print InteractiveTitle; Print Rule]
             ++ emitted (interactive_draft inp)
             ++ [Print Rule; Print GeneratedTitle; Print Rule;
                 Print (Text (build_message self)); Print Rule])
          ((confirm <- input AskCommit ;;
            if String.eqb (PyStr.lower (PyStr.strip confirm)) "y"
            then execute_commit git (build_message self)
            else print CommitCancelled ;;; ret false)
             (unread (interactive_draft inp))).
Proof.
  intros H. unfold interactive_commit. rewrite !bind_print.
  rewrite (bind_return _ _ _ self H). cbv beta zeta. rewrite !bind_print.
  unfold after. cbn [res unread emitted]. f_equal.
  cbn [app]. rewrite <- !app_assoc. reflexivity.
Qed.

Lemma runs_confirm_prefix (inp : list stdin_event) (message : string) :
  runs ([Print Rule; Print InteractiveTitle; Print Rule]
          ++ emitted (interactive_draft inp)
          ++ [Print Rule; Print GeneratedTitle; Print Rule;
              Print (Text message); Print Rule]) = [].
Proof.
  rewrite !runs_app. destruct (quiet_interactive_draft inp) as [-> _].
  reflexivity.
Qed.

(** Every way [interactive_commit] can end. *)
Lemma interactive_commit_cases (inp : list stdin_event) :
  ((forall self, res (interactive_draft inp) <> Return self)
   /\ runs (emitted (interactive_commit git inp)) = []
   /\ (res (interactive_commit git inp) = SysExit 1
       \/ res (interactive_commit git inp) = Raise EOFError
       \/ res (interactive_commit git inp) = Raise KeyboardInterrupt))
  \/ exists self,
       res (interactive_draft inp) = Return self
       /\ In (Print (Text (build_message self)))
             (emitted (interactive_commit git inp))
       /\ ((runs (emitted (interactive_commit git inp)) = []
            /\ (((res (interactive_commit git inp) = Raise EOFError
                  \/ res (interactive_commit git inp) = Raise KeyboardInterrupt)
                 /\ forall c rest,
                      unread (interactive_draft inp) <> Line c :: rest)
                \/ (exists c rest,
                      unread (interactive_draft inp) = Line c :: rest
                      /\ ~ affirmative c
                      /\ res (interactive_commit git inp) = Return false
                      /\ unread (interactive_commit git inp) = rest)))
           \/ (exists c rest,
                 unread (interactive_draft inp) = Line c :: rest
                 /\ affirmative c
                 /\ unread (interactive_commit git inp) = rest
                 /\ runs (emitted (interactive_commit git inp))
                    = [commit_argv (build_message self)]
                 /\ res (interactive_commit git inp)
                    = match git (commit_argv (build_message self)) with
                      | Completed => Return true
                      | CalledProcessError | FileNotFoundError => Return false
                      | OtherException => Raise SubprocessException
                      end)).
Proof.
  destruct (res (interactive_draft inp)) as [self|c|e] eqn:Hd.
  - right. exists self. split; [reflexivity|].
    rewrite (interactive_commit_confirm inp self Hd).
    set (pre := ([Print Rule; Print InteractiveTitle; Print Rule]
                   ++ emitted (interactive_draft inp)
                   ++ [Print Rule; Print GeneratedTitle; Print Rule;
                       Print (Text (build_message self)); Print Rule])%list).
    assert (Hpre : runs pre = []) by apply runs_confirm_prefix.
    assert (Hin : forall (r : run bool),
               In (Print (Text (build_message self))) (emitted (after pre r))).
    { intros r. cbn [after emitted]. apply in_or_app. left. unfold pre.
      apply in_or_app. right. apply in_or_app. right. cbn. tauto. }
    split; [apply Hin|].
    destruct (unread (interactive_draft inp)) as [|[c|] rest] eqn:Hu.
    + left. cbn [bind input res unread emitted after].
      rewrite runs_app, Hpre. split; [reflexivity|]. left.
      split; [left; reflexivity | discriminate].
    + rewrite bind_input_line.
      destruct (String.eqb (PyStr.lower (PyStr.strip c)) "y") eqn:Hc.
      * right. apply String.eqb_eq, lower_strip_y in Hc.
        destruct (execute_commit_run git (build_message self) rest)
          as (Hun & Hr & E).
        exists c, rest. cbn [after res unread emitted].
        rewrite !runs_app, Hpre, Hr, Hun.
        split; [reflexivity|]. split; [assumption|].
        split; [reflexivity|]. split; [reflexivity|].
        rewrite E. destruct (git _); reflexivity.
      * left. cbn [bind print ret after res unread emitted app].
        rewrite !runs_app, Hpre. split; [reflexivity|]. right.
        exists c, rest. repeat split; try reflexivity.
        intros Ha. apply lower_strip_y, String.eqb_eq in Ha. congruence.
    + left. cbn [bind input res unread emitted after].
      rewrite runs_app, Hpre. split; [reflexivity|]. left.
      split; [right; reflexivity | discriminate].
  - left. destruct (quiet_interactive_draft inp) as (Hr & Hc & _).
    specialize (Hc c Hd). subst c.
    unfold interactive_commit. rewrite !bind_print.
    rewrite (bind_exit _ _ _ 1%Z Hd). cbn [after res unread emitted].
    rewrite !runs_app, Hr. split; [discriminate|].
    split; [reflexivity | left; reflexivity].
  - left. destruct (quiet_interactive_draft inp) as (Hr & _ & Hx).
    unfold interactive_commit. rewrite !bind_print.
    rewrite (bind_raise _ _ _ e Hd). cbn [after res unread emitted].
    rewrite !runs_app, Hr. split; [discriminate|].
    split; [reflexivity|]. rewrite Hd in Hx.
    destruct e; [right; left | right; right | exfalso; apply Hx]; reflexivity.
Qed.

(** The last step of [main] in its two commit modes: the exit code. *)
Lemma exit_step (m : M bool) (inp : list stdin_event) :
  emitted ((ok <- m ;; if ok then sys_exit 0 else sys_exit 1) inp
           : run unit) = emitted (m inp)
  /\ unread ((ok <- m ;; if ok then sys_exit 0 else sys_exit 1) inp
             : run unit) = unread (m inp)
  /\ res ((ok <- m ;; if ok then sys_exit 0 else sys_exit 1) inp : run unit)
     = match res (m inp) with
       | Return ok => SysExit (exit_code_of ok)
       | SysExit c => SysExit c
       | Raise e => Raise e
       end.
Proof.
  unfold bind. destruct (res (m inp)) as [[|]|c|e];
    cbn [after sys_exit res unread emitted exit_code_of];
    rewrite ?app_nil_r; auto.
Qed.

(** Every way a run in one of the two commit modes can end. *)
Lemma main_commit_modes (args : Args) (inp : list stdin_event) :
  args_status args = false ->
  args_types args = false ->
  (runs (emitted (main git args inp)) = []
   /\ (res (main git args inp) = SysExit 1
       \/ res (main git args inp) = Raise EOFError
       \/ res (main git args inp) = Raise KeyboardInterrupt))
  \/ exists message,
       runs (emitted (main git args inp)) = [commit_argv message]
       /\ res (main git args inp)
          = match git (commit_argv message) with
            | Completed => SysExit 0
            | CalledProcessError | FileNotFoundError => SysExit 1
            | OtherException => Raise SubprocessException
            end.
Proof.
  intros Hs Ht. unfold main. rewrite Hs, Ht.
  destruct (args_quick args) as [[commit_type descr]|].
  - destruct (is_commit_type commit_type); cbn [negb].
    + right. destruct (exit_step (quick_commit git commit_type descr
                                               (args_scope args)) inp)
        as (-> & _ & ->).
      unfold quick_commit.
      destruct (execute_commit_run git
                  (build_message (quick_draft commit_type descr
                                              (args_scope args))) inp)
        as (_ & Hr & E).
      exists (build_message (quick_draft commit_type descr (args_scope args))).
      split; [exact Hr|]. rewrite E. destruct (git _); reflexivity.
    + left. cbn. auto.
  - destruct (exit_step (interactive_commit git) inp) as (-> & _ & ->).
    destruct (interactive_commit_cases inp)
      as [(_ & Hr & [->|[->| ->]])
         |(self & _ & _ & [[Hr [([->| ->] & _)|(c & rest & _ & _ & -> & _)]]
                          |(c & rest & _ & _ & _ & Hr & ->)])];
      try (left; split; [exact Hr | auto]).
    right. exists (build_message self). split; [exact Hr|].
    destruct (git _); reflexivity.
Qed.

(** X5: in interactive mode [git] is called only after the draft is
    complete and the answer to "Commit with this message?" is "y" or "Y"
    (white space around it allowed): the call is then the only one, it is
    [git commit -m] on the message built from the draft, and that same
    message was printed in the preview.  Any other answer ends
    [interactive_commit] with [False] and without a call. *)
Theorem commit_needs_confirmation (inp : list stdin_event) :
  (forall argv,
     In argv (runs (emitted (interactive_commit git inp))) ->
     exists self c rest,
       res (interactive_draft inp) = Return self
       /\ unread (interactive_draft inp) = Line c :: rest
       /\ affirmative c
       /\ argv = commit_argv (build_message self)
       /\ runs (emitted (interactive_commit git inp)) = [argv]
       /\ In (Print (Text (build_message self)))
             (emitted (interactive_commit git inp)))
  /\ (forall self c rest,
        res (interactive_draft inp) = Return self ->
        unread (interactive_draft inp) = Line c :: rest ->
        ~ affirmative c ->
        res (interactive_commit git inp) = Return false
        /\ unread (interactive_commit git inp) = rest
        /\ runs (emitted (interactive_commit git inp)) = []).
Proof.
  split.
  - intros argv Hin.
    destruct (interactive_commit_cases inp)
      as [(_ & Hr & _)
         |(self & Hd & Hp & [[Hr _]
                            |(c & rest & Hu & Ha & _ & Hr & _)])];
      try (rewrite Hr in Hin; contradiction).
    rewrite Hr in Hin. destruct Hin as [<-|[]].
    exists self, c, rest. auto 10.
  - intros self c rest Hd Hu Hn.
    destruct (interactive_commit_cases inp)
      as [(Hno & _)
         |(self' & _ & _ & [[Hr [(_ & Hne)|(c' & rest' & Hu' & _ & Hres & Hun)]]
                           |(c' & rest' & Hu' & Ha & _)])].
    + exfalso. apply (Hno self Hd).
    + exfalso. apply (Hne c rest Hu).
    + rewrite Hu in Hu'. injection Hu' as <- <-. auto.
    + rewrite Hu in Hu'. injection Hu' as <- <-. contradiction.
Qed.

(** X6: a run of the program calls at most one subprocess, whatever the
    command line, the input and the outcome of the call. *)
Theorem main_at_most_one_subprocess (args : Args) (inp : list stdin_event) :
  length (runs (emitted (main git args inp))) <= 1.
Proof.
  destruct (args_status args) eqn:Hs.
  - unfold main. rewrite Hs. unfold show_status.
    destruct (git _); cbn; lia.
  - destruct (args_types args) eqn:Ht.
    + unfold main. rewrite Hs, Ht. cbn. lia.
    + destruct (main_commit_modes args inp Hs Ht)
        as [[-> _]|(message & -> & _)]; cbn; lia.
Qed.

(** X7: in the two commit modes (neither [--status] nor [--types]) the
    program never returns from [main] without [sys.exit]: it ends with
    exit code 0 or 1, or with an exception.  The code is 0 exactly when
    [git commit] was called and completed.  A run that ends with an
    exception of [input] ([EOFError], or [KeyboardInterrupt] at a prompt)
    has called no subprocess; a run ends with an exception of
    [subprocess.run] exactly when [git commit] was called and raised
    something else than the two exceptions [execute_commit] catches. *)
Theorem main_exit_code (args : Args) (inp : list stdin_event) :
  args_status args = false ->
  args_types args = false ->
  res (main git args inp) <> Return tt
  /\ (forall c, res (main git args inp) = SysExit c -> c = 0%Z \/ c = 1%Z)
  /\ (res (main git args inp) = SysExit 0
      <-> exists message,
            runs (emitted (main git args inp)) = [commit_argv message]
            /\ git (commit_argv message) = Completed)
  /\ (res (main git args inp) = Raise EOFError
      \/ res (main git args inp) = Raise KeyboardInterrupt ->
      runs (emitted (main git args inp)) = [])
  /\ (res (main git args inp) = Raise SubprocessException
      <-> exists message,
            runs (emitted (main git args inp)) = [commit_argv message]
            /\ git (commit_argv message) = OtherException).
Proof.
  intros Hs Ht.
  destruct (main_commit_modes args inp Hs Ht)
    as [[Hr Hres]|(message & Hr & Hres)]; rewrite Hr.
  - assert (Hno : forall message : string, [] <> [commit_argv message])
      by discriminate.
    destruct Hres as [Hres|[Hres|Hres]]; rewrite Hres;
      (split; [discriminate|]);
      (split; [intros c E; first [discriminate E | injection E as <-; auto]|]);
      (split; [split; [discriminate | intros (m & E & _); discriminate E]|]);
      (split; [reflexivity|]);
      (split; [discriminate | intros (m & E & _); discriminate E]).
  - rewrite Hres.
    assert (Hinj : forall m, [commit_argv message] = [commit_argv m] ->
                             m = message)
      by (intros m E; now injection E).
    destruct (git (commit_argv message)) eqn:Hg;
      (split; [discriminate|]);
      (split; [intros c E; first [discriminate E | injection E as <-; auto]|]);
      (split;
       [split;
        [first [discriminate | intros _; exists message; auto]
        | intros (m & E & Hm); apply Hinj in E; subst m;
          first [reflexivity | congruence] ]|]);
      (split; [intros [E|E]; discriminate E|]);
      (split;
       [first [discriminate | intros _; exists message; auto]
       | intros (m & E & Hm); apply Hinj in E; subst m;
         first [reflexivity | congruence] ]).
Qed.

Lemma bind_step {A B : Type} (m : M A) (f : A -> M B)
    (inp u : list stdin_event) (a : A) :
  res (m inp) = Return a ->
  unread (m inp) = u ->
  res (bind m f inp) = res (f a u) /\ unread (bind m f inp) = unread (f a u).
Proof.
  intros H <-. rewrite (bind_return _ _ _ a H). split; reflexivity.
Qed.

Lemma select_type_selects (pre : list stdin_event) (l : string) (n : Z)
    (rest : list stdin_event) :
  Forall (out_of_range 11) pre ->
  PyStr.int (PyStr.strip l) = Some n ->
  (1 <= n <= 11)%Z ->
  res (select_type (pre ++ Line l :: rest)%list)
  = Return (nth (Z.to_nat (n - 1)) keys "")
  /\ unread (select_type (pre ++ Line l :: rest)%list) = rest.
Proof.
  intros Hpre Hint Hn. rewrite select_type_menu. cbn [after res unread].
  destruct (select_type_loop_skips keys pre (Line l :: rest) Hpre) as [-> ->].
  cbn [select_type_loop]. rewrite Hint.
  replace ((0 <=? n - 1) && (n - 1 <? Z.of_nat (length keys)))%Z with true
    by (symmetry; apply in_range_test; change (length keys) with 11; lia).
  split; reflexivity.
Qed.

(** The draft read from one answer to each prompt. *)
Lemma interactive_draft_reads (pre : list stdin_event)
    (num : string) (n : Z) (sc de : string) (lines : list string)
    (br : string) (rest : list stdin_event) :
  Forall (out_of_range 11) pre ->
  PyStr.int (PyStr.strip num) = Some n ->
  (1 <= n <= 11)%Z ->
  PyStr.strip de <> "" ->
  String.length (PyStr.strip de) <= 72 ->
  Forall (fun l => l <> "") lines ->
  res (interactive_draft
         (pre ++ Line num :: Line sc :: Line de
              :: map Line lines ++ Line "" :: Line br :: rest)%list)
  = Return (mkHelper (nth (Z.to_nat (n - 1)) keys "")
                     (PyStr.strip sc) (PyStr.strip de)
                     (PyStr.join LF lines)
                     (String.eqb (PyStr.lower (PyStr.strip br)) "y"))
  /\ unread (interactive_draft
               (pre ++ Line num :: Line sc :: Line de
                    :: map Line lines ++ Line "" :: Line br :: rest)%list)
     = rest.
Proof.
  intros Hpre Hint Hn Hde Hlen Hlines. unfold interactive_draft.
  destruct (select_type_selects pre num n
              (Line sc :: Line de
                 :: map Line lines ++ Line "" :: Line br :: rest)%list
              Hpre Hint Hn) as [Ht Hu].
  destruct (bind_step select_type
              (fun t => s <- get_scope ;; d <- get_description ;;
                        b <- get_body ;; br0 <- check_breaking ;;
                        ret (mkHelper t s d b br0))
              _ _ _ Ht Hu) as [-> ->].
  assert (Hd : get_description (Line de
                 :: map Line lines ++ Line "" :: Line br :: rest)%list
               = mkRun (Return (PyStr.strip de))
                       (map Line lines ++ Line "" :: Line br :: rest)%list
                       [Prompt AskDescription]).
  { cbn [get_description]. apply truthy_true in Hde. rewrite Hde.
    apply Nat.ltb_ge in Hlen. now rewrite Hlen. }
  assert (Hb : get_body (map Line lines ++ Line "" :: Line br :: rest)%list
               = after [Print BodyTitle; Print BodyHint]
                       (mkRun (Return (PyStr.join LF lines)) (Line br :: rest)
                              (repeat (Prompt AskBodyLine) (S (length lines))))).
  { change (get_body (map Line lines ++ Line "" :: Line br :: rest)%list)
      with (after [Print BodyTitle; Print BodyHint]
                  (get_body_loop [] (map Line lines ++ Line ""
                                         :: Line br :: rest)%list)).
    now rewrite get_body_loop_reads. }
  cbn [get_scope bind input ret res unread emitted after].
  rewrite (bind_return get_description _ _ (PyStr.strip de))
    by now rewrite Hd.
  rewrite Hd. cbn [res unread emitted after].
  rewrite (bind_return get_body _ _ (PyStr.join LF lines)) by now rewrite Hb.
  rewrite Hb. cbn [res unread emitted after].
  split; reflexivity.
Qed.

(** X8: with [--status] the program calls [git status --short] once and
    ends there, whatever else is on the command line: it reads no input,
    shows no prompt and makes no commit even when [-q TYPE DESC] is given.
    It returns normally (exit status 0) when the call completes and also
    when it fails or [git] is missing; only another exception of
    [subprocess.run] leaves [main]. *)
Theorem status_takes_precedence (args : Args) (inp : list stdin_event) :
  args_status args = true ->
  res (main git args inp)
  = match git ["git"; "status"; "--short"] with
    | Completed | CalledProcessError | FileNotFoundError => Return tt
    | OtherException => Raise SubprocessException
    end
  /\ unread (main git args inp) = inp
  /\ runs (emitted (main git args inp)) = [["git"; "status"; "--short"]]
  /\ forall p, ~ In (Prompt p) (emitted (main git args inp)).
Proof.
  intros Hs. unfold main. rewrite Hs. unfold show_status.
  destruct (git _); cbn; repeat split; intuition discriminate.
Qed.

(** X9: with [--types] and without [--status] the program prints one row
    for each entry of [COMMIT_TYPES], and rows for nothing else; it calls
    no subprocess, reads no input and returns normally, even when
    [-q TYPE DESC] is given. *)
Theorem types_lists_the_table (args : Args) (inp : list stdin_event) :
  args_status args = false ->
  args_types args = true ->
  res (main git args inp) = Return tt
  /\ unread (main git args inp) = inp
  /\ runs (emitted (main git args inp)) = []
  /\ (forall p, ~ In (Prompt p) (emitted (main git args inp)))
  /\ (forall t d,
        In (Print (TypeRow t d)) (emitted (main git args inp))
        <-> In (t, d) COMMIT_TYPES).
Proof.
  intros Hs Ht. unfold main. rewrite Hs, Ht.
  assert (E : show_types inp
              = mkRun (Return tt) inp
                      (Print TypesTitle :: Print Rule
                         :: map (fun kv => Print (TypeRow (fst kv) (snd kv)))
                                COMMIT_TYPES ++ [Print Rule])%list)
    by reflexivity.
  rewrite E. cbn [res unread emitted].
  split; [reflexivity|]. split; [reflexivity|]. split; [reflexivity|]. split.
  - intros p [H|[H|H]]; try discriminate.
    apply in_app_or in H as [H|[H|[]]]; [|discriminate].
    apply in_map_iff in H as (kv & H & _). discriminate.
  - intros t d. split.
    + intros [H|[H|H]]; try discriminate.
      apply in_app_or in H as [H|[H|[]]]; [|discriminate].
      apply in_map_iff in H as ([t' d'] & H & Hin).
      cbn [fst snd] in H. now injection H as <- <-.
    + intros H. right. right. apply in_or_app. left.
      apply in_map_iff. exists (t, d). auto.
Qed.

(** X10: one answer to each prompt, from the menu to the confirmation:
    after entries out of range, a number of the menu, a scope, a
    description of 1 to 72 characters once trimmed, body lines closed by an
    empty line, an answer to the breaking-change question and a "y" to the
    confirmation, the program calls [git commit -m] once, on the message
    built from the selected type, the trimmed scope and description, the
    joined body and the breaking answer, and reads no further.  It exits
    with 0 when the call completes and with 1 when it fails or [git] is
    missing; another exception of [subprocess.run] leaves [main]. *)
Theorem interactive_run_commits (pre : list stdin_event)
    (num : string) (n : Z) (sc de : string) (lines : list string)
    (br conf : string) (rest : list stdin_event) :
  Forall (out_of_range 11) pre ->
  PyStr.int (PyStr.strip num) = Some n ->
  (1 <= n <= 11)%Z ->
  PyStr.strip de <> "" ->
  String.length (PyStr.strip de) <= 72 ->
  Forall (fun l => l <> "") lines ->
  affirmative conf ->
  runs (emitted (main git interactive_args
          (pre ++ Line num :: Line sc :: Line de
               :: map Line lines ++ Line "" :: Line br :: Line conf
               :: rest)%list))
  = [commit_argv
       (build_message
          (mkHelper (nth (Z.to_nat (n - 1)) keys "")
                    (PyStr.strip sc) (PyStr.strip de) (PyStr.join LF lines)
                    (String.eqb (PyStr.lower (PyStr.strip br)) "y")))]
  /\ res (main git interactive_args
            (pre ++ Line num :: Line sc :: Line de
                 :: map Line lines ++ Line "" :: Line br :: Line conf
                 :: rest)%list)
     = match git (commit_argv
                    (build_message
                       (mkHelper (nth (Z.to_nat (n - 1)) keys "")
                                 (PyStr.strip sc) (PyStr.strip de)
                                 (PyStr.join LF lines)
                                 (String.eqb (PyStr.lower (PyStr.strip br))
                                             "y"))))
       with
       | Completed => SysExit 0
       | CalledProcessError | FileNotFoundError => SysExit 1
       | OtherException => Raise SubprocessException
       end
  /\ unread (main git interactive_args
               (pre ++ Line num :: Line sc :: Line de
                    :: map Line lines ++ Line "" :: Line br :: Line conf
                    :: rest)%list)
     = rest.
Proof.
  intros Hpre Hint Hn Hde Hlen Hlines Hconf.
  destruct (interactive_draft_reads pre num n sc de lines br
              (Line conf :: rest) Hpre Hint Hn Hde Hlen Hlines) as [Hd Hu].
  unfold main, interactive_args. cbn [args_status args_types args_quick].
  destruct (exit_step (interactive_commit git)
              (pre ++ Line num :: Line sc :: Line de
                   :: map Line lines ++ Line "" :: Line br :: Line conf
                   :: rest)%list) as (-> & -> & ->).
  destruct (interactive_commit_cases
              (pre ++ Line num :: Line sc :: Line de
                   :: map Line lines ++ Line "" :: Line br :: Line conf
                   :: rest)%list)
    as [(Hno & _)
       |(self & Hd' & _ & [[_ [(_ & Hne)|(c & r & Hu' & Hna & _)]]
                          |(c & r & Hu' & _ & Hun & Hr & Hres)])].
  - exfalso. eapply Hno, Hd.
  - exfalso. eapply Hne, Hu.
  - rewrite Hu in Hu'. injection Hu' as <- <-. contradiction.
  - rewrite Hu in Hu'. injection Hu' as <- <-.
    rewrite Hd in Hd'. injection Hd' as <-.
    rewrite Hres, Hr, Hun. split; [reflexivity|]. split; [|reflexivity].
    destruct (git _); reflexivity.
Qed.

End Interactive.

(* ------------------------------------------------------------------ *)
(** ** Edge cases of the type check, the header and the number prompt *)

Section Edges.

Variable git : list string -> proc_outcome.

Lemma commit_type_exact (t : string) :
  In t keys -> PyStr.strip t = t /\ PyStr.lower t = t.
Proof.
  rewrite keys_eq. cbn [In]. intros H.
  repeat (destruct H as [<-|H]; [split; reflexivity|]). destruct H.
Qed.

(** X12: the type of a quick commit is compared with the keys of
    [COMMIT_TYPES] as it is, without trimming or lower-casing: a TYPE that
    has white space around it or a capital letter in it is rejected, with
    exit code 1, no subprocess call and no input read. *)
Theorem quick_commit_type_is_exact (args : Args) (commit_type descr : string)
    (inp : list stdin_event) :
  args_status args = false ->
  args_types args = false ->
  args_quick args = Some (commit_type, descr) ->
  PyStr.strip commit_type <> commit_type
  \/ PyStr.lower commit_type <> commit_type ->
  res (main git args inp) = SysExit 1
  /\ unread (main git args inp) = inp
  /\ runs (emitted (main git args inp)) = [].
Proof.
  intros Hs Ht Hq Hne. unfold main. rewrite Hs, Ht, Hq.
  destruct (is_commit_type commit_type) eqn:E.
  - apply is_commit_type_In, commit_type_exact in E as [E1 E2].
    destruct Hne; contradiction.
  - cbn. auto.
Qed.

Lemma length_append (a b : string) :
  String.length (a ++ b) = String.length a + String.length b.
Proof.
  induction a as [|c a IH]; cbn [append String.length]; [reflexivity|].
  now rewrite IH.
Qed.

(** X13: the length of the header is that of the type, the description
    and the two characters ": " between them, plus the scope with its two
    parentheses when there is a scope, plus one for "!" when the breaking
    flag is on.  So the header is at least four characters longer than the
    description when the type is one of [COMMIT_TYPES]: the 72 characters
    that [get_description] accepts without a warning bound the description,
    not the first line of the message. *)
Theorem header_length (self : CommitHelper) :
  String.length (header self)
  = String.length (type self)
    + (if PyStr.truthy (scope self)
       then String.length (scope self) + 2 else 0)
    + (if breaking self then 1 else 0)
    + 2 + String.length (description self)
  /\ (In (type self) keys ->
      String.length (description self) + 4 <= String.length (header self)).
Proof.
  assert (E : String.length (header self)
              = String.length (type self)
                + (if PyStr.truthy (scope self)
                   then String.length (scope self) + 2 else 0)
                + (if breaking self then 1 else 0)
                + 2 + String.length (description self)).
  { unfold header.
    destruct (PyStr.truthy (scope self)), (breaking self);
      repeat (rewrite length_append; cbn [String.length]); lia. }
  split; [exact E|].
  intros Hin. rewrite E.
  assert (2 <= String.length (type self)).
  { revert Hin. rewrite keys_eq. cbn [In]. intros H.
    repeat (destruct H as [<-|H]; [cbn; lia|]). destruct H. }
  lia.
Qed.

(** X14: at the number prompt only [ValueError] and [KeyboardInterrupt]
    are handled: when the input ends there, after no entry or after
    entries that were all numbers out of range, [select_type] is left by an
    [EOFError], which [main] does not handle either; no subprocess has been
    called. *)
Theorem select_type_end_of_input (pre : list stdin_event) :
  Forall (out_of_range 11) pre ->
  res (select_type pre) = Raise EOFError
  /\ res (main git interactive_args pre) = Raise EOFError
  /\ runs (emitted (main git interactive_args pre)) = [].
Proof.
  intros Hpre.
  assert (Hs : res (select_type pre) = Raise EOFError).
  { rewrite select_type_menu. cbn [after res].
    destruct (select_type_loop_skips keys pre [] Hpre) as [H _].
    rewrite app_nil_r in H. rewrite H. reflexivity. }
  assert (Hm : res (main git interactive_args pre) = Raise EOFError).
  { unfold main, interactive_args. cbn [args_status args_types args_quick].
    destruct (exit_step (interactive_commit git) pre) as (_ & _ & ->).
    unfold interactive_commit. rewrite !bind_print.
    assert (Hd : res (interactive_draft pre) = Raise EOFError).
    { unfold interactive_draft. now rewrite (bind_raise _ _ _ EOFError Hs). }
    now rewrite (bind_raise _ _ _ EOFError Hd). }
  split; [exact Hs | split; [exact Hm|]].
  destruct (main_commit_modes git interactive_args pre eq_refl eq_refl)
    as [[Hr _]|(message & _ & Hres)]; [exact Hr|].
  rewrite Hm in Hres. destruct (git _); discriminate.
Qed.

End Edges.

(* ------------------------------------------------------------------ *)
(** ** Ctrl-C at the prompt that is waiting *)

Section Interrupt.

Lemma frames_ret {A : Type} (a : A) : frames (ret a).
Proof. intros L X a' H. injection H as <-. reflexivity. Qed.

Lemma frames_print (m : console_msg) : frames (print m).
Proof. intros L X [] _. reflexivity. Qed.

Lemma frames_input (p : prompt) : frames (input p).
Proof.
  intros [|[l|] L] X a H; try discriminate. injection H as <-. reflexivity.
Qed.

Lemma frames_bind {A B : Type} (m : M A) (f : A -> M B) :
  frames m -> (forall a, frames (f a)) -> frames (bind m f).
Proof.
  intros Hm Hf L X b H.
  destruct (bind_returns _ _ _ _ H) as (a & Ha & Hb).
  rewrite (bind_return m f (L ++ X) a) by now rewrite (Hm L X a Ha).
  rewrite (Hm L X a Ha). cbn [unread emitted].
  rewrite (Hf a _ X b Hb). rewrite (bind_return m f L a Ha).
  reflexivity.
Qed.

Lemma interrupt_input (p : prompt) : raises_on_interrupt (input p).
Proof. intros [|[l|] L] X H; try discriminate. reflexivity. Qed.

Lemma interrupt_ret {A : Type} (a : A) : raises_on_interrupt (ret a).
Proof. intros L X H. discriminate. Qed.

Lemma interrupt_print (m : console_msg) : raises_on_interrupt (print m).
Proof. intros L X H. discriminate. Qed.

Lemma interrupt_bind {A B : Type} (m : M A) (f : A -> M B) :
  frames m -> raises_on_interrupt m ->
  (forall a, raises_on_interrupt (f a)) ->
  raises_on_interrupt (bind m f).
Proof.
  intros Hfr Hm Hf L X H.
  destruct (res (m L)) as [a|c|e] eqn:E.
  - rewrite (bind_return m f L a E) in H. cbn [after res] in H.
    rewrite (bind_return m f (L ++ CtrlC :: X) a)
      by now rewrite (Hfr L (CtrlC :: X) a E).
    rewrite (Hfr L (CtrlC :: X) a E). cbn [after res unread emitted].
    now apply Hf.
  - rewrite (bind_exit m f L c E) in H. discriminate.
  - rewrite (bind_raise m f L e E) in H. injection H as ->.
    now rewrite (bind_raise m f _ KeyboardInterrupt (Hm L X E)).
Qed.

(** [get_description]: more input behind a call that returns, and Ctrl-C
    at its two prompts. *)
Lemma get_description_ahead (n : nat) :
  forall L X,
    length L <= n ->
    (forall a, res (get_description L) = Return a ->
               get_description (L ++ X)
               = mkRun (Return a) (unread (get_description L) ++ X)
                       (emitted (get_description L)))
    /\ (res (get_description L) = Raise EOFError ->
        res (get_description (L ++ CtrlC :: X)) = Raise KeyboardInterrupt).
Proof.
  induction n as [|n IH]; intros L X Hn.
  - destruct L; [|cbn in Hn; lia]. split; [discriminate | reflexivity].
  - destruct L as [|[l|] rest]; [split; [discriminate | reflexivity] |
                                 | split; discriminate].
    cbn [app get_description length] in *.
    destruct (PyStr.truthy (PyStr.strip l)).
    + destruct (72 <? String.length (PyStr.strip l))%nat.
      * destruct rest as [|[c|] rest'];
          [split; [discriminate | reflexivity] | | split; discriminate].
        cbn [app].
        destruct (String.eqb (PyStr.lower (PyStr.strip c)) "y").
        -- split; [|discriminate]. intros a E. injection E as <-. reflexivity.
        -- destruct (IH rest' X) as [H1 H2]; [cbn [length] in Hn; lia|].
           cbn [after res unread emitted]. split.
           ++ intros a E. rewrite (H1 a E). reflexivity.
           ++ exact H2.
      * split; [|discriminate]. intros a E. injection E as <-. reflexivity.
    + destruct (IH rest X) as [H1 H2]; [lia|].
      cbn [after res unread emitted]. split.
      * intros a E. rewrite (H1 a E). reflexivity.
      * exact H2.
Qed.

Lemma frames_get_description : frames get_description.
Proof.
  intros L X a H. now apply (get_description_ahead (length L) L X (le_n _)).
Qed.

Lemma interrupt_get_description : raises_on_interrupt get_description.
Proof.
  intros L X H. now apply (get_description_ahead (length L) L X (le_n _)).
Qed.

Lemma get_body_loop_ahead :
  forall L X acc,
    (forall a, res (get_body_loop acc L) = Return a ->
               get_body_loop acc (L ++ X)
               = mkRun (Return a) (unread (get_body_loop acc L) ++ X)
                       (emitted (get_body_loop acc L)))
    /\ (res (get_body_loop acc L) = Raise EOFError ->
        res (get_body_loop acc (L ++ CtrlC :: X)) = Raise KeyboardInterrupt).
Proof.
  induction L as [|[l|] rest IH]; intros X acc;
    [split; [discriminate | reflexivity] | | split; discriminate].
  cbn [app get_body_loop]. destruct (PyStr.truthy l); cbn [negb].
  - destruct (IH X (acc ++ [l])%list) as [H1 H2].
    cbn [after res unread emitted]. split; [|exact H2].
    intros a E. rewrite (H1 a E). reflexivity.
  - split; [|discriminate]. intros a E. injection E as <-. reflexivity.
Qed.

Lemma frames_get_body : frames get_body.
Proof.
  unfold get_body. repeat (apply frames_bind; [apply frames_print | intros _]).
  intros L X a H. now apply get_body_loop_ahead.
Qed.

Lemma interrupt_get_body : raises_on_interrupt get_body.
Proof.
  unfold get_body.
  repeat (apply interrupt_bind;
          [apply frames_print | apply interrupt_print | intros _]).
  intros L X H. now apply get_body_loop_ahead.
Qed.

(** The number prompt: more input behind a call that returns, and Ctrl-C
    where the loop met the end of the input. *)
Lemma select_type_loop_ahead (types : list string) :
  forall L X,
    (forall a, res (select_type_loop types L) = Return a ->
               select_type_loop types (L ++ X)
               = mkRun (Return a) (unread (select_type_loop types L) ++ X)
                       (emitted (select_type_loop types L)))
    /\ (res (select_type_loop types L) = Raise EOFError ->
        res (select_type_loop types (L ++ CtrlC :: X)) = SysExit 1).
Proof.
  induction L as [|[l|] rest IH]; intros X;
    [split; [discriminate | reflexivity] | | split; discriminate].
  cbn [app select_type_loop].
  destruct (PyStr.int (PyStr.strip l)) as [n|]; [|split; discriminate].
  destruct ((0 <=? n - 1) && (n - 1 <? Z.of_nat (length types)))%Z.
  - split; [|discriminate]. intros a E. injection E as <-. reflexivity.
  - destruct (IH X) as [H1 H2].
    cbn [after res unread emitted]. split; [|exact H2].
    intros a E. rewrite (H1 a E). reflexivity.
Qed.

Lemma frames_select_type : frames select_type.
Proof.
  intros L X a H. rewrite !select_type_menu in *. cbn [after res] in H.
  destruct (select_type_loop_ahead keys L X) as [H1 _].
  rewrite (H1 a H). reflexivity.
Qed.

Lemma frames_get_scope : frames get_scope.
Proof.
  unfold get_scope. apply frames_bind;
    [apply frames_input | intros; apply frames_ret].
Qed.

Lemma frames_check_breaking : frames check_breaking.
Proof.
  unfold check_breaking. apply frames_bind;
    [apply frames_input | intros; apply frames_ret].
Qed.

(** The prompts of the draft that follow the selection of the type. *)
Lemma frames_after_selection (t : string) :
  frames (s <- get_scope ;; d <- get_description ;; b <- get_body ;;
          br <- check_breaking ;; ret (mkHelper t s d b br)).
Proof.
  apply frames_bind; [apply frames_get_scope|].
  intros s. apply frames_bind; [apply frames_get_description|].
  intros d. apply frames_bind; [apply frames_get_body|].
  intros b. apply frames_bind; [apply frames_check_breaking|].
  intros br. apply frames_ret.
Qed.

Lemma interrupt_draft_prompts (t : string) :
  raises_on_interrupt
    (s <- get_scope ;; d <- get_description ;; b <- get_body ;;
     br <- check_breaking ;; ret (mkHelper t s d b br)).
Proof.
  apply interrupt_bind; [apply frames_get_scope | |].
  { unfold get_scope. apply interrupt_bind;
      [apply frames_input | apply interrupt_input
       | intros; apply interrupt_ret]. }
  intros s. apply interrupt_bind;
    [apply frames_get_description | apply interrupt_get_description|].
  intros d. apply interrupt_bind;
    [apply frames_get_body | apply interrupt_get_body|].
  intros b. apply interrupt_bind; [apply frames_check_breaking | |].
  { unfold check_breaking. apply interrupt_bind;
      [apply frames_input | apply interrupt_input
       | intros; apply interrupt_ret]. }
  intros br. apply interrupt_ret.
Qed.

Lemma frames_interactive_draft : frames interactive_draft.
Proof.
  unfold interactive_draft. apply frames_bind;
    [apply frames_select_type | apply frames_after_selection].
Qed.

Variable git : list string -> proc_outcome.

(** The confirmation that follows the preview. *)
Lemma interrupt_confirmation (message : string) :
  raises_on_interrupt
    (confirm <- input AskCommit ;;
     if String.eqb (PyStr.lower (PyStr.strip confirm)) "y"
     then execute_commit git message
     else print CommitCancelled ;;; ret false).
Proof.
  apply interrupt_bind; [apply frames_input | apply interrupt_input|].
  intros confirm L X.
  destruct (String.eqb (PyStr.lower (PyStr.strip confirm)) "y").
  - unfold execute_commit. destruct (git _); discriminate.
  - discriminate.
Qed.

Lemma main_interactive_res (inp : list stdin_event) :
  res (main git interactive_args inp)
  = match res (interactive_commit git inp) with
    | Return ok => SysExit (exit_code_of ok)
    | SysExit c => SysExit c
    | Raise e => Raise e
    end.
Proof.
  unfold main, interactive_args. cbn [args_status args_types args_quick].
  now destruct (exit_step (interactive_commit git) inp) as (_ & _ & ->).
Qed.

Lemma interactive_commit_stops (inp : list stdin_event) :
  (forall c, res (interactive_draft inp) = SysExit c ->
             res (interactive_commit git inp) = SysExit c)
  /\ (forall e, res (interactive_draft inp) = Raise e ->
                res (interactive_commit git inp) = Raise e).
Proof.
  split; intros x H; unfold interactive_commit; rewrite !bind_print;
    [rewrite (bind_exit _ _ _ x H) | rewrite (bind_raise _ _ _ x H)];
    reflexivity.
Qed.

(** X11: Ctrl-C at the prompt that is waiting.  When the program, in
    interactive mode and on the input [L], stops for lack of input, a
    prompt is waiting there.  With Ctrl-C in that place the run ends with
    exit code 1 when that prompt is the number prompt of [select_type], and
    as an uncaught [KeyboardInterrupt] when it is any later prompt (scope,
    description, "Continue anyway?", a line of the body, the
    breaking-change question, the confirmation); no subprocess is
    called. *)
Theorem interrupt_at_waiting_prompt (L X : list stdin_event) :
  res (main git interactive_args L) = Raise EOFError ->
  runs (emitted (main git interactive_args (L ++ CtrlC :: X)%list)) = []
  /\ ((res (select_type L) = Raise EOFError
       /\ res (main git interactive_args (L ++ CtrlC :: X)%list) = SysExit 1)
      \/ ((exists t, res (select_type L) = Return t)
          /\ res (main git interactive_args (L ++ CtrlC :: X)%list)
             = Raise KeyboardInterrupt)).
Proof.
  intros H. rewrite main_interactive_res in H.
  assert (Hkbd : res (main git interactive_args (L ++ CtrlC :: X)%list)
                 = Raise KeyboardInterrupt ->
                 runs (emitted (main git interactive_args
                                     (L ++ CtrlC :: X)%list)) = []).
  { intros Hm.
    destruct (main_commit_modes git interactive_args (L ++ CtrlC :: X)%list
                eq_refl eq_refl)
      as [[Hr _]|(message & _ & Hres)]; [exact Hr|].
    rewrite Hm in Hres. destruct (git _); discriminate. }
  destruct (res (interactive_draft L)) as [self|c|e] eqn:Hd.
  - (* the draft is complete: the confirmation is waiting *)
    rewrite (interactive_commit_confirm git L self Hd) in H.
    cbn [after res] in H.
    destruct (res ((confirm <- input AskCommit ;;
                    if String.eqb (PyStr.lower (PyStr.strip confirm)) "y"
                    then execute_commit git (build_message self)
                    else print CommitCancelled ;;; ret false)
                     (unread (interactive_draft L)))) as [ok|c|e] eqn:Hc;
      try discriminate.
    injection H as ->.
    pose proof (frames_interactive_draft L (CtrlC :: X) self Hd) as Hfr.
    assert (Hd' : res (interactive_draft (L ++ CtrlC :: X)%list) = Return self)
      by now rewrite Hfr.
    assert (Hm : res (main git interactive_args (L ++ CtrlC :: X)%list)
                 = Raise KeyboardInterrupt).
    { rewrite main_interactive_res.
      rewrite (interactive_commit_confirm git _ self Hd').
      cbn [after res]. rewrite Hfr. cbn [unread].
      now rewrite (interrupt_confirmation (build_message self) _ X Hc). }
    split; [now apply Hkbd|]. right. split; [|exact Hm].
    unfold interactive_draft in Hd.
    apply bind_returns in Hd as (t & Ht & _). eauto.
  - destruct (interactive_commit_stops L) as [Hx _].
    rewrite (Hx c Hd) in H. discriminate.
  - destruct (interactive_commit_stops L) as [_ Hx].
    rewrite (Hx e Hd) in H. injection H as ->.
    unfold interactive_draft in Hd.
    destruct (res (select_type L)) as [t|c|e] eqn:Ht.
    + (* a type is selected: a later prompt of the draft is waiting *)
      rewrite (bind_return _ _ _ t Ht) in Hd. cbn [after res] in Hd.
      pose proof (frames_select_type L (CtrlC :: X) t Ht) as Hfr.
      assert (Hd' : res (interactive_draft (L ++ CtrlC :: X)%list)
                    = Raise KeyboardInterrupt).
      { unfold interactive_draft.
        rewrite (bind_return _ _ _ t) by now rewrite Hfr.
        rewrite Hfr. cbn [after res unread].
        now apply interrupt_draft_prompts. }
      assert (Hm : res (main git interactive_args (L ++ CtrlC :: X)%list)
                   = Raise KeyboardInterrupt).
      { rewrite main_interactive_res.
        destruct (interactive_commit_stops (L ++ CtrlC :: X)%list) as [_ Hx'].
        now rewrite (Hx' _ Hd'). }
      split; [now apply Hkbd|]. right. split; [eauto | exact Hm].
    + rewrite (bind_exit _ _ _ c Ht) in Hd. discriminate.
    + (* the number prompt is waiting *)
      rewrite (bind_raise _ _ _ e Ht) in Hd. injection Hd as ->.
      assert (Hs : res (select_type (L ++ CtrlC :: X)%list) = SysExit 1).
      { rewrite select_type_menu in *. cbn [after res] in *.
        now apply select_type_loop_ahead. }
      rewrite (main_exits_with_select_type git _ 1 Hs).
      cbn [res emitted]. split; [|left; split; reflexivity].
      rewrite runs_app. destruct (quiet_select_type (L ++ CtrlC :: X)%list)
        as (-> & _). reflexivity.
Qed.

End Interrupt.

(* ------------------------------------------------------------------ *)
(** ** Instances *)

(** The confirmation theorem at a run whose last answer is "no". *)
Lemma commit_needs_confirmation_witness :
  res (interactive_commit (fun _ => Completed)
         [Line "1"; Line ""; Line "Add login"; Line ""; Line "n"; Line "no"])
  = Return false.
Proof.
  destruct (commit_needs_confirmation (fun _ => Completed)
              [Line "1"; Line ""; Line "Add login"; Line ""; Line "n";
               Line "no"]) as [_ H].
  destruct (H (mkHelper "feat" "" "Add login" "" false) "no" [])
    as [Hres _]; [reflexivity | reflexivity | | exact Hres].
  intros Ha. apply lower_strip_y in Ha. discriminate Ha.
Defined.

(** The exit-code theorem at a quick commit. *)
Lemma main_exit_code_witness :
  res (main (fun _ => Completed)
            (mkArgs (Some ("feat", "Add login")) None false false) [])
  <> Return tt.
Proof.
  destruct (main_exit_code (fun _ => Completed)
              (mkArgs (Some ("feat", "Add login")) None false false) []
              eq_refl eq_refl) as [H _].
  exact H.
Defined.

(** The status theorem at a command line that also asks for a quick commit
    and for the types, with [git] missing. *)
Lemma status_takes_precedence_witness :
  res (main (fun _ => FileNotFoundError)
            (mkArgs (Some ("feat", "Add login")) None true true) [Line "1"])
  = Return tt
  /\ runs (emitted (main (fun _ => FileNotFoundError)
                         (mkArgs (Some ("feat", "Add login")) None true true)
                         [Line "1"]))
     = [["git"; "status"; "--short"]].
Proof.
  destruct (status_takes_precedence (fun _ => FileNotFoundError)
              (mkArgs (Some ("feat", "Add login")) None true true)
              [Line "1"] eq_refl) as (H1 & _ & H3 & _).
  split; [exact H1 | exact H3].
Defined.

(** The types theorem at a command line that also asks for a quick
    commit. *)
Lemma types_lists_the_table_witness :
  res (main (fun _ => Completed)
            (mkArgs (Some ("feat", "Add login")) None false true) [])
  = Return tt
  /\ runs (emitted (main (fun _ => Completed)
                         (mkArgs (Some ("feat", "Add login")) None false true)
                         []))
     = [].
Proof.
  destruct (types_lists_the_table (fun _ => Completed)
              (mkArgs (Some ("feat", "Add login")) None false true) []
              eq_refl eq_refl) as (H1 & _ & H3 & _).
  split; [exact H1 | exact H3].
Defined.

(** The run theorem at a complete session whose commit fails. *)
Lemma interactive_run_commits_witness :
  runs (emitted (main (fun _ => CalledProcessError) interactive_args
                      [Line "0"; Line "2"; Line " parser ";
                       Line "Handle empty input"; Line "first"; Line "second";
                       Line ""; Line "Y"; Line "y"; Line "left"]))
  = [["git"; "commit"; "-m";
      "fix(parser)!: Handle empty input" ++ LF ++ LF ++ "first" ++ LF
        ++ "second" ++ LF ++ LF ++ BREAKING_PARAGRAPH]]
  /\ res (main (fun _ => CalledProcessError) interactive_args
               [Line "0"; Line "2"; Line " parser ";
                Line "Handle empty input"; Line "first"; Line "second";
                Line ""; Line "Y"; Line "y"; Line "left"])
     = SysExit 1.
Proof.
  destruct (interactive_run_commits (fun _ => CalledProcessError)
              [Line "0"] "2" 2%Z " parser " "Handle empty input"
              ["first"; "second"] "Y" "y" [Line "left"])
    as (Hr & Hres & _).
  - constructor; [|constructor].
    exists "0", 0%Z. split; [reflexivity|]. split; [reflexivity | lia].
  - reflexivity.
  - lia.
  - vm_compute. discriminate.
  - vm_compute. lia.
  - repeat constructor; discriminate.
  - exists "", "". split; [reflexivity|]. split; [reflexivity|].
    left. reflexivity.
  - split; [exact Hr | exact Hres].
Defined.

(** The interrupt theorem at each prompt: the number prompt after an entry
    out of range, then the scope, the description, "Continue anyway?", a
    line of the body, the breaking-change question and the confirmation. *)
Lemma interrupt_at_waiting_prompt_witness :
  res (main (fun _ => Completed) interactive_args [Line "0"; CtrlC])
  = SysExit 1
  /\ res (main (fun _ => Completed) interactive_args [Line "3"; CtrlC])
     = Raise KeyboardInterrupt
  /\ res (main (fun _ => Completed) interactive_args
               [Line "3"; Line "api"; CtrlC])
     = Raise KeyboardInterrupt
  /\ res (main (fun _ => Completed) interactive_args
               [Line "3"; Line "api";
                Line "Describe every option of the command line tool in the manual page and the help text";
                CtrlC])
     = Raise KeyboardInterrupt
  /\ res (main (fun _ => Completed) interactive_args
               [Line "3"; Line "api"; Line "Describe the options";
                Line "first"; CtrlC])
     = Raise KeyboardInterrupt
  /\ res (main (fun _ => Completed) interactive_args
               [Line "3"; Line "api"; Line "Describe the options";
                Line "first"; Line ""; CtrlC])
     = Raise KeyboardInterrupt
  /\ res (main (fun _ => Completed) interactive_args
               [Line "3"; Line "api"; Line "Describe the options";
                Line "first"; Line ""; Line "n"; CtrlC])
     = Raise KeyboardInterrupt.
Proof.
  split; [|split; [|split; [|split; [|split; [|split]]]]].
  - destruct (interrupt_at_waiting_prompt (fun _ => Completed)
                [Line "0"] [] eq_refl) as [_ [[_ H]|[[t Ht] _]]];
      [exact H | discriminate Ht].
  - destruct (interrupt_at_waiting_prompt (fun _ => Completed)
                [Line "3"] [] eq_refl) as [_ [[Ht _]|[_ H]]];
      [discriminate Ht | exact H].
  - destruct (interrupt_at_waiting_prompt (fun _ => Completed)
                [Line "3"; Line "api"] [] eq_refl) as [_ [[Ht _]|[_ H]]];
      [discriminate Ht | exact H].
  - destruct (interrupt_at_waiting_prompt (fun _ => Completed)
                [Line "3"; Line "api";
                 Line "Describe every option of the command line tool in the manual page and the help text"]
                [] eq_refl) as [_ [[Ht _]|[_ H]]];
      [discriminate Ht | exact H].
  - destruct (interrupt_at_waiting_prompt (fun _ => Completed)
                [Line "3"; Line "api"; Line "Describe the options";
                 Line "first"] [] eq_refl) as [_ [[Ht _]|[_ H]]];
      [discriminate Ht | exact H].
  - destruct (interrupt_at_waiting_prompt (fun _ => Completed)
                [Line "3"; Line "api"; Line "Describe the options";
                 Line "first"; Line ""] [] eq_refl) as [_ [[Ht _]|[_ H]]];
      [discriminate Ht | exact H].
  - destruct (interrupt_at_waiting_prompt (fun _ => Completed)
                [Line "3"; Line "api"; Line "Describe the options";
                 Line "first"; Line ""; Line "n"] [] eq_refl)
      as [_ [[Ht _]|[_ H]]];
      [discriminate Ht | exact H].
Defined.

(** The exact-type theorem at a type with a capital letter. *)
Lemma quick_commit_type_is_exact_witness :
  res (main (fun _ => Completed)
            (mkArgs (Some ("Feat", "Add login")) None false false) [])
  = SysExit 1.
Proof.
  destruct (quick_commit_type_is_exact (fun _ => Completed)
              (mkArgs (Some ("Feat", "Add login")) None false false)
              "Feat" "Add login" [] eq_refl eq_refl eq_refl) as [H _].
  - right. vm_compute. discriminate.
  - exact H.
Defined.

(** The end-of-input theorem after the entries 0 and 99. *)
Lemma select_type_end_of_input_witness :
  res (select_type [Line "0"; Line "99"]) = Raise EOFError.
Proof.
  destruct (select_type_end_of_input (fun _ => Completed)
              [Line "0"; Line "99"]) as [H _]; [|exact H].
  repeat constructor.
  - exists "0", 0%Z. split; [reflexivity|]. split; [reflexivity | lia].
  - exists "99", 99%Z. split; [reflexivity|]. split; [reflexivity | lia].
Defined.
